(** * mcp-domain-checker: the registrar client and the tool adapter

    A shallow embedding of [internal/pkg/namecheap] (the Namecheap client:
    [NewNamecheapTool], [DomainsCheck], [checkDomains], [buildRequestURL],
    [parseResults], [ParseFloat]) and of [internal/pkg/tool] (the generic
    adapter: [Handler]); then of package [tools] (the adapter of a
    [DomainChecker] and its factory) and of [setupTools] and
    [corsMiddleware] of [cmd/app].

    Go values are modelled as follows.
    - [string] is a byte sequence: Rocq's [string].
    - [float64] is IEEE 754 binary64: Rocq's primitive [float].
    - [error] is the inductive [error] below; the [nil] error is [None].
    - a function with several results returns a tuple.
    - a slice is a [list]; the [nil] slice is [[]].
    - the calls that reach the outside world (the logger and the HTTP
      client) are the nodes of the interaction type [IO]. *)

From Stdlib Require Import ZArith NArith List String Ascii Bool Lia.
From Stdlib Require Import Floats.
Import ListNotations.

Set Warnings "-inexact-float".

Open Scope list_scope.
Open Scope string_scope.

(** ** Go's [float64] and [error] *)

Definition float64 : Set := float.

(** Go error values, and the operands of [fmt.Errorf]: an error under
    the verb [%w], which the new error wraps, or a string under [%s].  A
    package-level [errors.New] value is identified by its text (every such
    value of the packages modelled here has a text of its own);
    [lib_error] is an error made inside [net/url], [net/http],
    [encoding/xml] or [encoding/json]. *)
Inductive error : Type :=
| errors_New (text : string)
| fmt_Errorf (format : string) (args : list fmt_arg)
| strconv_NumError (Func Num : string) (Err : error)
| lib_error (origin text : string)
with fmt_arg : Type :=
| arg_error (e : error)
| arg_string (s : string).

(** [errors.Is err target]: [err] is [target], or wraps it through a [%w]
    operand or through [NumError.Unwrap]. *)
Definition error_eqb_shallow (a b : error) : bool :=
  match a, b with
  | errors_New x, errors_New y => (x =? y)%string
  | lib_error o x, lib_error p y => (o =? p)%string && (x =? y)%string
  | _, _ => false
  end.

Fixpoint errors_Is (err target : error) {struct err} : bool :=
  error_eqb_shallow err target ||
  match err with
  | fmt_Errorf _ args =>
      (fix any (l : list fmt_arg) : bool :=
         match l with
         | [] => false
         | arg_error e :: l' => errors_Is e target || any l'
         | arg_string _ :: l' => any l'
         end) args
  | strconv_NumError _ _ e => errors_Is e target
  | _ => false
  end.

(** ** The part of Go's [strconv] that the client calls

    [strconv.ParseFloat(s, 64)] belongs to Go's standard library, not to
    the repository.  The model below follows its grammar ([special],
    [readFloat], [underscoreOK]) and its documented result: the nearest
    binary64 value, rounded to even, with [ErrRange] and an infinity on
    overflow and [ErrSyntax] and [0] when [s] is not wholly a number.
    The general theorems about the client quantify over the parser; this
    model serves the statements about concrete strings. *)
Module strconv.

Definition ErrSyntax : error := errors_New "invalid syntax".
Definition ErrRange : error := errors_New "value out of range".

Definition syntaxError (fn str : string) : error :=
  strconv_NumError fn str ErrSyntax.
Definition rangeError (fn str : string) : error :=
  strconv_NumError fn str ErrRange.

Definition fnParseFloat : string := "ParseFloat".

(** [lower(c)]: [c | ('x' - 'X')]. *)
Definition lower (c : ascii) : ascii :=
  ascii_of_N (N.lor (N_of_ascii c) 32).

Definition isDigit (c : ascii) : bool := ("0" <=? c)%char && (c <=? "9")%char.
Definition isHexLetter (c : ascii) : bool :=
  ("a" <=? lower c)%char && (lower c <=? "f")%char.
Definition isUpper (c : ascii) : bool := ("A" <=? c)%char && (c <=? "Z")%char.

Definition digitVal (c : ascii) : Z := (Z.of_N (N_of_ascii c) - 48)%Z.
Definition hexLetterVal (c : ascii) : Z := (Z.of_N (N_of_ascii (lower c)) - 97 + 10)%Z.

(** [commonPrefixLenIgnoreCase(s, prefix)], [prefix] being lower case. *)
Fixpoint commonPrefixLenIgnoreCase (s prefix : string) : nat :=
  match s, prefix with
  | String c s', String p prefix' =>
      let c' := if isUpper c then ascii_of_N (N_of_ascii c + 32) else c in
      if (c' =? p)%char then S (commonPrefixLenIgnoreCase s' prefix') else 0
  | _, _ => 0
  end.

(** [special(s)]: the infinities and NaN.  The result is the value and
    the number of bytes read. *)
Definition special (s : string) : option (float64 * nat) :=
  let inf (neg : bool) (nsign : nat) (t : string) :=
    let n := commonPrefixLenIgnoreCase t "infinity" in
    let n := if (3 <? n)%nat && (n <? 8)%nat then 3%nat else n in
    if (n =? 3)%nat || (n =? 8)%nat
    then Some (if neg then neg_infinity else infinity, (nsign + n)%nat)
    else None in
  match s with
  | EmptyString => None
  | String c t =>
      if (c =? "+")%char then inf false 1%nat t
      else if (c =? "-")%char then inf true 1%nat t
      else if (c =? "i")%char || (c =? "I")%char then inf false 0%nat s
      else if (c =? "n")%char || (c =? "N")%char then
        if (commonPrefixLenIgnoreCase s "nan" =? 3)%nat
        then Some (nan, 3%nat) else None
      else None
  end.

(** [underscoreOK(s)]: an underscore stands only between digits, or
    between a base prefix and a digit. *)
Inductive saw_t := saw_start | saw_digit | saw_underscore | saw_other.

Fixpoint underscoreLoop (hex : bool) (saw : saw_t) (s : string) : bool :=
  match s with
  | EmptyString => match saw with saw_underscore => false | _ => true end
  | String c s' =>
      if isDigit c || (hex && isHexLetter c) then underscoreLoop hex saw_digit s'
      else if (c =? "_")%char then
        match saw with
        | saw_digit => underscoreLoop hex saw_underscore s'
        | _ => false
        end
      else
        match saw with
        | saw_underscore => false
        | _ => underscoreLoop hex saw_other s'
        end
  end.

Definition underscoreOK (s : string) : bool :=
  let s := match s with
           | String c s' => if (c =? "-")%char || (c =? "+")%char then s' else s
           | _ => s
           end in
  match s with
  | String c0 (String c1 rest) =>
      if (c0 =? "0")%char &&
         ((lower c1 =? "b")%char || (lower c1 =? "o")%char || (lower c1 =? "x")%char)
      then underscoreLoop (lower c1 =? "x")%char saw_digit rest
      else underscoreLoop false saw_start s
  | _ => underscoreLoop false saw_start s
  end.

(** The digits of the mantissa, read exactly: [m_val] is the digit string
    as an integer in the base, [m_frac] the number of digits after the
    point. *)
Record mant : Set := mkMant {
  m_val : Z;
  m_frac : Z;
  m_sawdot : bool;
  m_sawdigits : bool;
  m_underscores : bool
}.

Fixpoint readMantissa (base16 : bool) (st : mant) (s : string) : mant * string :=
  match s with
  | EmptyString => (st, s)
  | String c s' =>
      let push (d : Z) :=
        mkMant (m_val st * (if base16 then 16 else 10) + d)%Z
               (if m_sawdot st then m_frac st + 1 else m_frac st)%Z
               (m_sawdot st) true (m_underscores st) in
      if (c =? "_")%char then
        readMantissa base16
          (mkMant (m_val st) (m_frac st) (m_sawdot st) (m_sawdigits st) true) s'
      else if (c =? ".")%char then
        if m_sawdot st then (st, s)
        else readMantissa base16
               (mkMant (m_val st) (m_frac st) true (m_sawdigits st) (m_underscores st)) s'
      else if isDigit c then readMantissa base16 (push (digitVal c)) s'
      else if base16 && isHexLetter c then readMantissa base16 (push (hexLetterVal c)) s'
      else (st, s)
  end.

(** The digits of the exponent; the value stops growing at 10000, as in
    [readFloat]. *)
Fixpoint readExpDigits (e : Z) (underscores : bool) (s : string) : Z * bool * string :=
  match s with
  | EmptyString => (e, underscores, s)
  | String c s' =>
      if (c =? "_")%char then readExpDigits e true s'
      else if isDigit c then
        readExpDigits (if (e <? 10000)%Z then (e * 10 + digitVal c)%Z else e) underscores s'
      else (e, underscores, s)
  end.

(** What [readFloat] returns when it accepts a prefix of [s]. *)
Record number : Set := mkNumber {
  n_neg : bool;
  n_hex : bool;
  n_mant : Z;      (* the digits, as an integer *)
  n_exp : Z;       (* the value is [n_mant * base^n_exp], base 10, or 2 when [n_hex] *)
  n_read : nat     (* the number of bytes read *)
}.

Definition readFloat (s : string) : option number :=
  let len := String.length s in
  let '(neg, s1) :=
    match s with
    | String c t => if (c =? "+")%char then (false, t)
                    else if (c =? "-")%char then (true, t) else (false, s)
    | _ => (false, s)
    end in
  let '(hex, s2) :=
    match s1 with
    | String c0 (String c1 (String c2 t)) =>
        if (c0 =? "0")%char && (lower c1 =? "x")%char then (true, String c2 t) else (false, s1)
    | _ => (false, s1)
    end in
  let '(m, s3) := readMantissa hex (mkMant 0%Z 0%Z false false false) s2 in
  if negb (m_sawdigits m) then None else
  let dp := (if hex then - (4 * m_frac m) else - m_frac m)%Z in
  let finish (e : Z) (underscores : bool) (rest : string) :=
    let n := (len - String.length rest)%nat in
    if underscores && negb (underscoreOK (substring 0 n s)) then None
    else Some (mkNumber neg hex (m_val m) (dp + e)%Z n) in
  match s3 with
  | String c s4 =>
      if (lower c =? (if hex then "p" else "e"))%char then
        let '(esign, s5) :=
          match s4 with
          | String d t => if (d =? "+")%char then (1%Z, t)
                          else if (d =? "-")%char then ((-1)%Z, t) else (1%Z, s4)
          | _ => (1%Z, s4)
          end in
        match s5 with
        | String d _ =>
            if isDigit d then
              let '(e, us, rest) := readExpDigits 0%Z (m_underscores m) s5 in
              finish (e * esign)%Z us rest
            else None
        | EmptyString => None
        end
      else if hex then None
      else finish 0%Z (m_underscores m) s3
  | EmptyString => if hex then None else finish 0%Z (m_underscores m) s3
  end.

(** The nearest binary64 value of [m * 10^e] or [m * 2^e], ties to even,
    by the rounding functions of the standard library's [SpecFloat]. *)
Definition nearest (neg hex : bool) (m e : Z) : spec_float :=
  match m with
  | Zpos p =>
      if hex then binary_round prec emax neg p e
      else if (0 <=? e)%Z then binary_round prec emax neg (p * Z.to_pos (10 ^ e)) 0%Z
      else
        let '(q, e', l) := SFdiv_core_binary prec emax (Zpos p) 0%Z (10 ^ (- e))%Z 0%Z in
        binary_round_aux prec emax neg q e' l
  | _ => S754_zero neg
  end.

Definition atof64 (s : string) : float64 * nat * option error :=
  match special s with
  | Some (val, n) => (val, n, None)
  | None =>
      match readFloat s with
      | None => (0%float, 0%nat, Some (syntaxError fnParseFloat s))
      | Some x =>
          let f := nearest (n_neg x) (n_hex x) (n_mant x) (n_exp x) in
          match f with
          | S754_infinity _ => (SF2Prim f, n_read x, Some (rangeError fnParseFloat s))
          | _ => (SF2Prim f, n_read x, None)
          end
      end
  end.

(** [strconv.ParseFloat(s, 64)]. *)
Definition ParseFloat (s : string) : float64 * option error :=
  let '(f, n, err) := atof64 s in
  match err with
  | Some (strconv_NumError _ _ (errors_New "invalid syntax")) => (f, err)
  | _ => if (n =? String.length s)%nat then (f, err)
         else (0%float, Some (syntaxError fnParseFloat s))
  end.

End strconv.

(** ** Interaction with the outside world

    A computation that returns an [A] after a finite number of calls to
    the outside world; [E X] are the calls that are answered by an [X]. *)
Inductive IO (E : Type -> Type) (A : Type) : Type :=
| Ret (a : A)
| Vis (X : Type) (e : E X) (k : X -> IO E A).

Arguments Ret {E A} a.
Arguments Vis {E A X} e k.

Fixpoint bind {E : Type -> Type} {A B : Type} (m : IO E A) (f : A -> IO E B) : IO E B :=
  match m with
  | Ret a => f a
  | Vis e k => Vis e (fun x => bind (k x) f)
  end.

Definition trigger {E : Type -> Type} {X : Type} (e : E X) : IO E X := Vis e Ret.

Declare Scope io_scope.
Delimit Scope io_scope with io.
Notation "x <- m ;; k" := (bind m (fun x => k))
  (at level 61, m at next level, right associativity) : io_scope.
Notation "m ;;; k" := (bind m (fun _ => k))
  (at level 61, right associativity) : io_scope.

(** An environment answers every call; [run] is the result of the
    computation in an environment and [calls] the calls it makes there, in
    order. *)
Definition env (E : Type -> Type) : Type := forall X : Type, E X -> X.

Fixpoint run {E : Type -> Type} {A : Type} (h : env E) (m : IO E A) : A :=
  match m with
  | Ret a => a
  | Vis e k => run h (k (h _ e))
  end.

Fixpoint calls {E : Type -> Type} {A : Type} (h : env E) (m : IO E A) : list {X : Type & E X} :=
  match m with
  | Ret _ => []
  | Vis e k => existT _ _ e :: calls h (k (h _ e))
  end.

(** ** The part of Go's [net/url] that the client calls

    [url.Values] with [Add], [Get] and [Encode], and [url.ParseQuery],
    which reads back what [Encode] writes; they belong to Go's standard
    library.  [url.Parse] and [URL.String] are taken as parameters of
    the client (see [namecheap.Libraries]). *)
Module url.

Record Userinfo : Set := mkUserinfo {
  username : string;
  password : string;
  passwordSet : bool
}.

Record URL : Set := mkURL {
  Scheme : string;
  Opaque : string;
  User : option Userinfo;
  Host : string;
  Path : string;
  RawPath : string;
  OmitHost : bool;
  ForceQuery : bool;
  RawQuery : string;
  Fragment : string;
  RawFragment : string
}.

(** [u.RawQuery = q]. *)
Definition set_RawQuery (u : URL) (q : string) : URL :=
  mkURL (Scheme u) (Opaque u) (User u) (Host u) (Path u) (RawPath u)
        (OmitHost u) (ForceQuery u) q (Fragment u) (RawFragment u).

(** [Values] is [map[string][]string]: an association list with one
    entry for a key. *)
Definition Values : Set := list (string * list string).

(** [v[key]]. *)
Fixpoint lookup (v : Values) (key : string) : list string :=
  match v with
  | [] => []
  | (k, vs) :: v' => if (k =? key)%string then vs else lookup v' key
  end.

(** [v[key] = vs]. *)
Fixpoint store (v : Values) (key : string) (vs : list string) : Values :=
  match v with
  | [] => [(key, vs)]
  | (k, old) :: v' =>
      if (k =? key)%string then (k, vs) :: v' else (k, old) :: store v' key vs
  end.

Definition Add (v : Values) (key value : string) : Values :=
  store v key (lookup v key ++ [value])%list.

Definition Get (v : Values) (key : string) : string :=
  match lookup v key with
  | [] => ""
  | x :: _ => x
  end.

Definition keys (v : Values) : list string := map fst v.

(** [slices.Sorted]: insertion into a list sorted by the byte order of
    strings. *)
Fixpoint insertSorted (k : string) (l : list string) : list string :=
  match l with
  | [] => [k]
  | x :: l' => if (k <=? x)%string then k :: l else x :: insertSorted k l'
  end.

Definition Sorted (l : list string) : list string :=
  fold_right insertSorted [] l.

(** [shouldEscape(c, encodeQueryComponent)]: everything is escaped but
    the letters, the digits and [- _ . ~]. *)
Definition isAlnum (c : ascii) : bool :=
  (("a" <=? c) && (c <=? "z") || ("A" <=? c) && (c <=? "Z") ||
   ("0" <=? c) && (c <=? "9"))%char.

Definition shouldEscape (c : ascii) : bool :=
  negb (isAlnum c || (c =? "-")%char || (c =? "_")%char ||
        (c =? ".")%char || (c =? "~")%char).

Definition upperhex (n : N) : ascii :=
  match String.get (N.to_nat n) "0123456789ABCDEF" with
  | Some c => c
  | None => "0"%char
  end.

(** [QueryEscape(s)]. *)
Fixpoint QueryEscape (s : string) : string :=
  match s with
  | EmptyString => EmptyString
  | String c s' =>
      if (c =? " ")%char then String "+" (QueryEscape s')
      else if shouldEscape c then
        String "%" (String (upperhex (N.shiftr (N_of_ascii c) 4))
                   (String (upperhex (N.land (N_of_ascii c) 15)) (QueryEscape s')))
      else String c (QueryEscape s')
  end.

Definition ishex (c : ascii) : bool :=
  (("0" <=? c) && (c <=? "9") || ("a" <=? c) && (c <=? "f") ||
   ("A" <=? c) && (c <=? "F"))%char.

Definition unhex (c : ascii) : N :=
  let n := N_of_ascii c in
  if (("0" <=? c) && (c <=? "9"))%char then n - 48
  else if (("a" <=? c) && (c <=? "f"))%char then n - 97 + 10
  else if (("A" <=? c) && (c <=? "F"))%char then n - 65 + 10
  else 0.

Definition EscapeError (s : string) : error := lib_error "url.EscapeError" s.

(** [QueryUnescape(s)]: the first ill-formed [%] escape is the error. *)
Fixpoint QueryUnescape (s : string) : string * option error :=
  match s with
  | EmptyString => (EmptyString, None)
  | String c s' =>
      if (c =? "%")%char then
        match s' with
        | String h1 (String h2 s'') =>
            if ishex h1 && ishex h2 then
              match QueryUnescape s'' with
              | (t, None) =>
                  (String (ascii_of_N (N.lor (N.shiftl (unhex h1) 4) (unhex h2))) t, None)
              | (_, Some e) => (EmptyString, Some e)
              end
            else (EmptyString, Some (EscapeError (substring 0 3 s)))
        | _ => (EmptyString, Some (EscapeError (substring 0 3 s)))
        end
      else
        match QueryUnescape s' with
        | (t, None) => (String (if (c =? "+")%char then " "%char else c) t, None)
        | (_, Some e) => (EmptyString, Some e)
        end
  end.

(** [v.Encode()]: the keys in sorted order, [key=value] for every value
    of a key, joined by [&]. *)
Definition Encode (v : Values) : string :=
  fold_left
    (fun (buf : string) (k : string) =>
       let keyEscaped := QueryEscape k in
       fold_left
         (fun (buf : string) (x : string) =>
            (if (String.length buf =? 0)%nat then buf else buf ++ "&")
              ++ keyEscaped ++ "=" ++ QueryEscape x)
         (lookup v k) buf)
    (Sorted (keys v)) "".

(** [strings.Cut(s, sep)] for a separator of one byte. *)
Fixpoint Cut (s : string) (sep : ascii) : string * string * bool :=
  match s with
  | EmptyString => (EmptyString, EmptyString, false)
  | String c s' =>
      if (c =? sep)%char then (EmptyString, s', true)
      else let '(before, after, found) := Cut s' sep in (String c before, after, found)
  end.

Fixpoint Contains (s : string) (c : ascii) : bool :=
  match s with
  | EmptyString => false
  | String d s' => (d =? c)%char || Contains s' c
  end.

(** The keys that the loop of [parseQuery] cuts off [query] one after
    the other, [key, query, _ = strings.Cut(query, "&")] as long as
    [query != ""]: the first one and the later ones. *)
Fixpoint cuts (query : string) : string * list string :=
  match query with
  | EmptyString => (EmptyString, [])
  | String c q' =>
      if (c =? "&")%char then
        (EmptyString,
         match q' with
         | EmptyString => []
         | _ => let '(p, ps) := cuts q' in p :: ps
         end)
      else let '(p, ps) := cuts q' in (String c p, ps)
  end.

Definition pieces (query : string) : list string :=
  match query with
  | EmptyString => []
  | _ => let '(p, ps) := cuts query in p :: ps
  end.

(** One turn of the loop of [parseQuery]. *)
Definition parseQuery_step (st : Values * option error) (key : string)
  : Values * option error :=
  let '(m, err) := st in
  if Contains key ";" then
    (m, Some (fmt_Errorf "invalid semicolon separator in query" []))
  else if (key =? "")%string then (m, err)
  else
    let '(key, value, _) := Cut key "=" in
    match QueryUnescape key with
    | (_, Some err1) => (m, match err with None => Some err1 | _ => err end)
    | (key, None) =>
        match QueryUnescape value with
        | (_, Some err1) => (m, match err with None => Some err1 | _ => err end)
        | (value, None) => (store m key (lookup m key ++ [value])%list, err)
        end
    end.

Definition ParseQuery (query : string) : Values * option error :=
  fold_left parseQuery_step (pieces query) ([], None).

(** [u.Query()]. *)
Definition Query (u : URL) : Values := fst (ParseQuery (RawQuery u)).

(** What [Encode] writes, said directly: the pairs of a key and a value,
    in the order of the sorted keys, each as [key=value] with both sides
    escaped, joined by [&]. *)
Definition flat (v : Values) : list (string * string) :=
  flat_map (fun k => map (pair k) (lookup v k)) (Sorted (keys v)).

Definition render (p : string * string) : string :=
  QueryEscape (fst p) ++ "=" ++ QueryEscape (snd p).

Definition emit (buf : string) (p : string * string) : string :=
  (if (String.length buf =? 0)%nat then buf else buf ++ "&") ++ render p.

Fixpoint joined_tail (ps : list (string * string)) : string :=
  match ps with
  | [] => ""
  | p :: ps' => "&" ++ render p ++ joined_tail ps'
  end.

Definition joined (ps : list (string * string)) : string :=
  match ps with
  | [] => ""
  | p :: ps' => render p ++ joined_tail ps'
  end.

End url.

(** ** Values of [net/http] and [go.uber.org/zap] that the client handles *)

Record http_Request : Set := mkRequest {
  req_Method : string;
  req_URL : url.URL
}.

Record http_Response : Set := mkResponse {
  resp_StatusCode : Z;
  resp_Body : string
}.

(** A [*zap.Logger], known by its reference. *)
Inductive zap_Logger : Set := logger_ref (id : nat).

(** ** Package [namecheap] *)
Module namecheap.

Definition maxDomainsPerCheck : nat := 50.
Definition httpTimeoutSeconds : Z := 30.

Definition ErrMissingDomains : error := errors_New "missing domains to check".
Definition ErrMissingAPICredentials : error := errors_New "missing API credentials".
Definition ErrNamecheapAPIFailed : error := errors_New "Namecheap API call failed".
Definition ErrAPIError : error := errors_New "API error".
Definition ErrMaxDomainsExceeded : error :=
  errors_New "max of 50 domains are allowed in a single check command".

Record Config : Set := mkConfig {
  APIUser : string;
  APIKey : string;
  UserName : string;
  ClientIP : string;
  Endpoint : string
}.

Record Service : Set := mkService {
  logger : zap_Logger;
  config : Config
}.

Module Result.
Record t : Set := mk {
    Domain : string;
    Available : bool;
    IsPremiumName : bool;
    PremiumRegistrationPrice : float64;
    PremiumRenewalPrice : float64;
    IcannFee : float64;
    EapFee : float64;
    Error : string
  }.

Definition set_PremiumRegistrationPrice (r : t) (x : float64) : t :=
    mk (Domain r) (Available r) (IsPremiumName r) x (PremiumRenewalPrice r)
       (IcannFee r) (EapFee r) (Error r).
Definition set_PremiumRenewalPrice (r : t) (x : float64) : t :=
    mk (Domain r) (Available r) (IsPremiumName r) (PremiumRegistrationPrice r) x
       (IcannFee r) (EapFee r) (Error r).
Definition set_IcannFee (r : t) (x : float64) : t :=
    mk (Domain r) (Available r) (IsPremiumName r) (PremiumRegistrationPrice r)
       (PremiumRenewalPrice r) x (EapFee r) (Error r).
Definition set_EapFee (r : t) (x : float64) : t :=
    mk (Domain r) (Available r) (IsPremiumName r) (PremiumRegistrationPrice r)
       (PremiumRenewalPrice r) (IcannFee r) x (Error r).
Definition set_Error (r : t) (x : string) : t :=
    mk (Domain r) (Available r) (IsPremiumName r) (PremiumRegistrationPrice r)
       (PremiumRenewalPrice r) (IcannFee r) (EapFee r) x.
End Result.

Module Error.
Record t : Set := mk {
    Number : string;
    Message : string
  }.
End Error.

Module Errors.
Record t : Set := mk {
    Error : list Error.t
  }.
End Errors.

Module DomainCheckResult.
Record t : Set := mk {
    Domain : string;
    Available : string;
    IsPremiumName : string;
    PremiumRegistrationPrice : string;
    PremiumRenewalPrice : string;
    IcannFee : string;
    EapFee : string;
    ErrorNo : string;
    Description : string
  }.
End DomainCheckResult.

Module CommandResponse.
Record t : Set := mk {
    Type_ : string;
    DomainCheckResults : list DomainCheckResult.t
  }.
End CommandResponse.

Module APIResponse.
Record t : Set := mk {
    Status : string;
    Errors : Errors.t;
    CommandResponse : CommandResponse.t
  }.
End APIResponse.

(** The fields that the client hands to the logger. *)
Inductive zap_Field : Set :=
| zap_Strings (key : string) (val : list string)
| zap_String (key val : string)
| zap_Int (key : string) (val : Z)
| zap_Any (key : string) (val : list Result.t).

(** The calls of the client to the outside world: a line for the logger,
    the HTTP exchange [client.Do(req)] of a client with the given timeout
    (in seconds), and [resp.Body.Close()]. *)
Inductive event : Type -> Type :=
| Debug (l : zap_Logger) (msg : string) (fields : list zap_Field) : event unit
| Do (timeout : Z) (req : http_Request) : event (error + http_Response)
| Close (resp : http_Response) : event unit.

(** The functions of Go's standard library that the client calls and
    that are left open: [strconv.ParseFloat(s, 64)], [url.Parse],
    [URL.String], [http.NewRequestWithContext(context.Background(),
    method, url, nil)] and the decoding of a response body into an
    [APIResponse] by [encoding/xml].  A call that returns a pointer and an
    error returns one of the two. *)
Class Libraries : Type := {
  strconv_ParseFloat : string -> float64 * option error;
  url_Parse : string -> error + url.URL;
  URL_String : url.URL -> string;
  http_NewRequestWithContext : string -> string -> error + http_Request;
  xml_Decode : string -> error + APIResponse.t
}.

Section Client.
Context {L : Libraries}.

Definition NewNamecheapTool (logger : zap_Logger) (config : Config)
  : option Service * option error :=
  if (APIUser config =? "") || (APIKey config =? "") ||
     (UserName config =? "") || (ClientIP config =? "")
  then (None, Some ErrMissingAPICredentials)
  else (Some (mkService logger config), None).

Definition Description (n : Service) : string :=
  "Check domain availability using Namecheap API".

Definition Name (n : Service) : string := "check_availability_namecheap".

Definition ParseFloat (s : string) : float64 * option error :=
  if (s =? "") then (0%float, None) else strconv_ParseFloat s.

(** The body of the loop of [parseResults]: the [Result] of one record. *)
Definition parseResult (domainResult : DomainCheckResult.t) : Result.t :=
  let result :=
    Result.mk (DomainCheckResult.Domain domainResult)
              (DomainCheckResult.Available domainResult =? "true")
              (DomainCheckResult.IsPremiumName domainResult =? "true")
              0%float 0%float 0%float 0%float "" in
  let result :=
    if negb (DomainCheckResult.ErrorNo domainResult =? "0") &&
       negb (DomainCheckResult.Description domainResult =? "")
    then Result.set_Error result (DomainCheckResult.Description domainResult)
    else result in
  let result :=
    if Result.IsPremiumName result then
      let '(price, regErr) := ParseFloat (DomainCheckResult.PremiumRegistrationPrice domainResult) in
      let result :=
        match regErr with
        | None => Result.set_PremiumRegistrationPrice result price
        | Some _ => result
        end in
      let '(price, renErr) := ParseFloat (DomainCheckResult.PremiumRenewalPrice domainResult) in
      match renErr with
      | None => Result.set_PremiumRenewalPrice result price
      | Some _ => result
      end
    else result in
  let '(fee, icannErr) := ParseFloat (DomainCheckResult.IcannFee domainResult) in
  let result :=
    match icannErr with
    | None => Result.set_IcannFee result fee
    | Some _ => result
    end in
  let '(fee, eapErr) := ParseFloat (DomainCheckResult.EapFee domainResult) in
  let result :=
    match eapErr with
    | None => Result.set_EapFee result fee
    | Some _ => result
    end in
  result.

Definition parseResults (n : Service) (domainResults : list DomainCheckResult.t)
  : list Result.t :=
  fold_left
    (fun (results : list Result.t) (domainResult : DomainCheckResult.t) =>
       (results ++ [parseResult domainResult])%list)
    domainResults [].

Definition buildRequestURL (n : Service) (baseURL domainList : string)
  : string * option error :=
  match url_Parse baseURL with
  | inl err => ("", Some err)
  | inr baseURLParsed =>
      let params : url.Values := [] in
      let params := url.Add params "ApiUser" (APIUser (config n)) in
      let params := url.Add params "ApiKey" (APIKey (config n)) in
      let params := url.Add params "UserName" (UserName (config n)) in
      let params := url.Add params "ClientIp" (ClientIP (config n)) in
      let params := url.Add params "Command" "namecheap.domains.check" in
      let params := url.Add params "DomainList" domainList in
      let baseURLParsed := url.set_RawQuery baseURLParsed (url.Encode params) in
      (URL_String baseURLParsed, None)
  end.

Definition checkDomains (n : Service) (domains : list string)
  : IO event (list Result.t * option error) :=
  (trigger (Debug (logger n) "Checking domains with Namecheap API"
                  [zap_Strings "domains" domains]) ;;;
   let domainList := String.concat "," domains in
   match buildRequestURL n (Endpoint (config n)) domainList with
   | (_, Some err) =>
       Ret ([], Some (fmt_Errorf "failed to build request URL: %w" [arg_error err]))
   | (reqURL, None) =>
       trigger (Debug (logger n) "Making Namecheap API call"
                      [zap_String "url" reqURL;
                       zap_Int "domain_count" (Z.of_nat (List.length domains))]) ;;;
       match http_NewRequestWithContext "GET" reqURL with
       | inl err =>
           Ret ([], Some (fmt_Errorf "failed to create request: %w" [arg_error err]))
       | inr req =>
           r <- trigger (Do httpTimeoutSeconds req) ;;
           match r with
           | inl err =>
               Ret ([], Some (fmt_Errorf "HTTP request failed: %w" [arg_error err]))
           | inr resp =>
               (* the deferred [resp.Body.Close()] runs when the rest returns *)
               out <-
                 match xml_Decode (resp_Body resp) with
                 | inl err =>
                     Ret ([], Some (fmt_Errorf "failed to decode XML response: %w"
                                               [arg_error err]))
                 | inr apiResp =>
                     if negb (APIResponse.Status apiResp =? "OK") then
                       let errorMsg :=
                         match Errors.Error (APIResponse.Errors apiResp) with
                         | e :: _ => Error.Message e
                         | [] => "unknown error"
                         end in
                       Ret ([], Some (fmt_Errorf "%w: %s"
                                        [arg_error ErrAPIError; arg_string errorMsg]))
                     else
                       let results :=
                         parseResults n
                           (CommandResponse.DomainCheckResults
                              (APIResponse.CommandResponse apiResp)) in
                       trigger (Debug (logger n) "Domain check completed"
                                  [zap_Int "domains_checked" (Z.of_nat (List.length results));
                                   zap_Any "results" results]) ;;;
                       Ret (results, None)
                 end ;;
               trigger (Close resp) ;;;
               Ret out
           end
       end
   end)%io.

Definition DomainsCheck (n : Service) (domains : list string)
  : IO event (list Result.t * option error) :=
  if (List.length domains =? 0)%nat then Ret ([], Some ErrMissingDomains)
  else if (maxDomainsPerCheck <? List.length domains)%nat then
    Ret ([], Some ErrMaxDomainsExceeded)
  else checkDomains n domains.

(** What [parseResults] keeps of a numeric attribute [s] that it reads:
    the parsed value, or the zero of the field when parsing fails. *)
Definition parsed_or_zero (s : string) : float64 :=
  match ParseFloat s with
  | (v, None) => v
  | (_, Some _) => 0%float
  end.


End Client.

(** [ParamsIn] and [ParamsOut], the input and the output of the tool. *)
Record ParamsIn : Set := mkParamsIn {
  Domains : list string
}.

Record ParamsOut : Set := mkParamsOut {
  Results : list Result.t
}.

(** A value of the interface [DomainChecker]: its three methods. *)
Record DomainChecker : Type := mkDomainChecker {
  DomainChecker_DomainsCheck : list string -> IO event (list Result.t * option error);
  DomainChecker_Name : string;
  DomainChecker_Description : string
}.

(** A [*Service] as a [DomainChecker]. *)
Definition Service_DomainChecker {L : Libraries} (n : Service) : DomainChecker :=
  mkDomainChecker (DomainsCheck n) (Name n) (Description n).

End namecheap.

(** ** The values of the protocol library [mcp] that the adapter builds

    Only the fields that [Handler] sets are kept; the others have their
    zero values. *)
Module mcp.

Definition Role : Set := string.

Module Annotations.
Record t : Set := mk {
    Audience : list Role;
    Priority : float64
  }.
End Annotations.

Module TextContent.
Record t : Set := mk {
    Text : string;
    Annotations : option Annotations.t
  }.
End TextContent.

(** A [Content] is an interface; the adapter stores a [*TextContent]. *)
Inductive Content : Set :=
| TextContentRef (c : TextContent.t).

Module CallToolResult.
Record t : Set := mk {
    IsError : bool;
    Content : list Content
  }.
End CallToolResult.

End mcp.

(** ** Package [tool] *)
Module tool.

(** What Go knows of a type [Out]: its zero value ([var zero Out]) and
    [json.Marshal] at that type, which fails on a value without a JSON
    form. *)
Class GoType (Out : Type) : Type := {
  zero : Out;
  json_Marshal : Out -> string * option error
}.

Section Tool.
Context {E : Type -> Type} {In Out : Type} {G : GoType Out}.

(** A value of the interface [Service[In, Out]]: its three methods. *)
Record Service : Type := mkService {
  Service_Name : string;
  Service_Description : string;
  Execute : In -> IO E (Out * option error)
}.

Record Tool : Type := mkTool {
  service : Service
}.

Definition NewTool (service : Service) : Tool := mkTool service.

Definition Name (t : Tool) : string := Service_Name (service t).

Definition Description (t : Tool) : string := Service_Description (service t).

Definition Handler (t : Tool) (args : In)
  : IO E (option mcp.CallToolResult.t * Out * option error) :=
  (r <- Execute (service t) args ;;
   let '(output, err) := r in
   match err with
   | Some err => Ret (None, zero, Some err)
   | None =>
       let '(jsonData, err) := json_Marshal output in
       match err with
       | Some err =>
           Ret (None, zero,
                Some (fmt_Errorf "error marshaling results to JSON: %w" [arg_error err]))
       | None =>
           Ret (Some (mcp.CallToolResult.mk false
                        [mcp.TextContentRef
                           (mcp.TextContent.mk jsonData
                              (Some (mcp.Annotations.mk ["assistant"] 1%float)))]),
                output, None)
       end
   end)%io.

End Tool.

Arguments Service : clear implicits.
Arguments Tool : clear implicits.

End tool.

(** ** Libraries for evaluating the client on examples

    [strconv.ParseFloat] is the model above.  The other functions are
    stand-ins: a URL is cut at its first [#] and its first [?] and the
    part before them is kept whole as the path, a string that starts with
    a colon being refused as [url.Parse] refuses a URL without a scheme;
    a request is the method and the parsed URL; and the decoder returns
    the envelope that it is given in advance. *)
Definition example_Parse (s : string) : error + url.URL :=
  match s with
  | String ":" _ => inl (lib_error "url.Error" "missing protocol scheme")
  | _ =>
      let '(rest, frag, _) := url.Cut s "#" in
      let '(path, query, _) := url.Cut rest "?" in
      inr (url.mkURL "" "" None "" path "" false false query frag "")
  end.

Definition example_String (u : url.URL) : string :=
  url.Path u
  ++ (if url.ForceQuery u || negb (url.RawQuery u =? "") then "?" ++ url.RawQuery u else "")
  ++ (if url.Fragment u =? "" then "" else "#" ++ url.Fragment u).

Definition example_NewRequest (method url : string) : error + http_Request :=
  match example_Parse url with
  | inl e => inl e
  | inr u => inr (mkRequest method u)
  end.

Definition example_libraries (decoded : error + namecheap.APIResponse.t)
  : namecheap.Libraries :=
  {| namecheap.strconv_ParseFloat := strconv.ParseFloat;
     namecheap.url_Parse := example_Parse;
     namecheap.URL_String := example_String;
     namecheap.http_NewRequestWithContext := example_NewRequest;
     namecheap.xml_Decode := fun _ => decoded |}.

(** Records for evaluation, after [TestParseResults] and [TestParseFloat]:
    a regular domain that carries premium prices, a domain with an error,
    a premium domain, a domain with fees, one with a negative fee and
    one whose numbers are not numbers. *)
Definition regular_com : namecheap.DomainCheckResult.t :=
  namecheap.DomainCheckResult.mk "regular.com" "true" "false" "1000.00" "500.00" "" "" "0" "".
Definition error_com : namecheap.DomainCheckResult.t :=
  namecheap.DomainCheckResult.mk "error.com" "false" "" "" "" "" "" "1" "Domain check failed".
Definition premium_com : namecheap.DomainCheckResult.t :=
  namecheap.DomainCheckResult.mk "premium.com" "true" "true" "1000.00" "500.00" "" "" "0" "".
Definition example_com : namecheap.DomainCheckResult.t :=
  namecheap.DomainCheckResult.mk "example.com" "true" "" "" "" "0.18" "10.00" "0" "".
Definition negative_com : namecheap.DomainCheckResult.t :=
  namecheap.DomainCheckResult.mk "negative.com" "true" "" "" "" "-10.5" "" "0" "".
Definition malformed_com : namecheap.DomainCheckResult.t :=
  namecheap.DomainCheckResult.mk "malformed.com" "true" "true" "invalid" "10.5abc" "invalid" "10.5abc" "0" "".

(** Records beyond those of the tests.  Two carry a description with no
    error code other than zero: the [ErrorNo] attribute of the first is
    absent, which [encoding/xml] leaves as the empty string, and that of
    the second spells zero with two digits.  Three carry fees in the
    spellings that [strconv.ParseFloat] accepts besides decimal numbers,
    or a decimal number beyond the range of [float64]. *)
Definition absent_code_com : namecheap.DomainCheckResult.t :=
  namecheap.DomainCheckResult.mk "absent.com" "false" "" "" "" "" "" "" "Domain check failed".
Definition zero_code_com : namecheap.DomainCheckResult.t :=
  namecheap.DomainCheckResult.mk "zero.com" "false" "" "" "" "" "" "00" "Domain check failed".

(** ** The words of the specification

    Two notions that the specification uses and the code does not have,
    written after the specification for comparison with the code.

    A record "carries a non-zero error code" when its [ErrorNo]
    attribute is present and does not spell zero; every other text
    counts as a non-zero code, which is the widest reading. *)
Fixpoint all_zeros (s : string) : bool :=
  match s with
  | EmptyString => true
  | String c s' => (c =? "0")%char && all_zeros s'
  end.

Definition spec_nonzero_error_code (s : string) : bool :=
  negb (s =? "") && negb (all_zeros s).

(** A "well-formed decimal string" is an optional sign, decimal digits
    with an optional point among them, and an optional exponent: [e] or
    [E], an optional sign, digits. *)
Fixpoint spec_digits (s : string) : nat * string :=
  match s with
  | EmptyString => (0%nat, s)
  | String c s' =>
      if strconv.isDigit c then
        let '(k, rest) := spec_digits s' in (S k, rest)
      else (0%nat, s)
  end.

Definition spec_sign (s : string) : string :=
  match s with
  | String c s' => if (c =? "+")%char || (c =? "-")%char then s' else s
  | EmptyString => s
  end.

Definition spec_decimal_string (s : string) : bool :=
  let '(whole, s1) := spec_digits (spec_sign s) in
  let '(fraction, s2) :=
    match s1 with
    | String c s' => if (c =? ".")%char then spec_digits s' else (0%nat, s1)
    | EmptyString => (0%nat, s1)
    end in
  (0 <? whole + fraction)%nat &&
  match s2 with
  | EmptyString => true
  | String c s' =>
      ((c =? "e")%char || (c =? "E")%char) &&
      (let '(exponent, s3) := spec_digits (spec_sign s') in
       (0 <? exponent)%nat && (s3 =? ""))
  end.

Definition go : namecheap.Libraries :=
  example_libraries (inl (lib_error "xml" "EOF")).

Definition example_service : namecheap.Service :=
  namecheap.mkService (logger_ref 0)
    (namecheap.mkConfig "user" "key" "username" "127.0.0.1" "").

(** An environment that logs silently and answers every HTTP exchange
    with [answer]. *)
Definition example_env (answer : error + http_Response) : env namecheap.event :=
  fun (X : Type) (e : namecheap.event X) =>
    match e in namecheap.event T return T with
    | namecheap.Debug _ _ _ => tt
    | namecheap.Do _ _ => answer
    | namecheap.Close _ => tt
    end.

(** An envelope that reports a failure, and one that reports none. *)
Definition error_envelope : namecheap.APIResponse.t :=
  namecheap.APIResponse.mk "ERROR"
    (namecheap.Errors.mk [namecheap.Error.mk "1011102" "API Key is invalid or API access has not been enabled"])
    (namecheap.CommandResponse.mk "namecheap.domains.check" [example_com]).

Definition ok_envelope : namecheap.APIResponse.t :=
  namecheap.APIResponse.mk "OK" (namecheap.Errors.mk [])
    (namecheap.CommandResponse.mk "namecheap.domains.check" [error_com; example_com]).

(** The services of [tool_test.go]: one that answers with a text, one
    that fails, and one whose output holds a channel, which has no JSON
    form.  The encoding of [mockOutput] is a stand-in for texts without
    characters to escape. *)
Record mockInput : Set := mkMockInput { Value : string }.
Record mockOutput : Set := mkMockOutput { Result_ : string }.
Inductive unmarshalableOutput : Set := mkUnmarshalable (Channel : nat).

Definition dquote : string := String (ascii_of_nat 34) EmptyString.

#[export] Instance mockOutput_GoType : tool.GoType mockOutput :=
  {| tool.zero := mkMockOutput "";
     tool.json_Marshal := fun o =>
       ("{" ++ dquote ++ "result" ++ dquote ++ ":" ++ dquote ++ Result_ o ++ dquote ++ "}",
        None) |}.

#[export] Instance unmarshalableOutput_GoType : tool.GoType unmarshalableOutput :=
  {| tool.zero := mkUnmarshalable 0;
     tool.json_Marshal := fun _ =>
       ("", Some (lib_error "json.UnsupportedTypeError" "json: unsupported type: chan int")) |}.

Definition errServiceError : error := errors_New "service error".

Definition successService : tool.Service namecheap.event mockInput mockOutput :=
  tool.mkService "test" "test"
    (fun i => Ret (mkMockOutput ("success: " ++ Value i), None)).

Definition failingService : tool.Service namecheap.event mockInput mockOutput :=
  tool.mkService "test" "test" (fun _ => Ret (mkMockOutput "", Some errServiceError)).

Definition unmarshalableService : tool.Service namecheap.event mockInput unmarshalableOutput :=
  tool.mkService "unmarshalable" "unmarshalable" (fun _ => Ret (mkUnmarshalable 1, None)).

(** The default of [NAMECHEAP_ENDPOINT] in [cmd/app/config.go]. *)
Definition defaultNamecheapEndpoint : string :=
  "https://api.namecheap.com/xml.response".

(** ** Reading the calls of the client

    The HTTP exchanges among the calls of a computation, each with its
    timeout and its request, and the responses whose body is closed. *)
Definition exchange_of (c : {X : Type & namecheap.event X})
  : list (Z * http_Request) :=
  match projT2 c with
  | namecheap.Do timeout req => [(timeout, req)]
  | _ => []
  end.

Definition closed_of (c : {X : Type & namecheap.event X}) : list http_Response :=
  match projT2 c with
  | namecheap.Close resp => [resp]
  | _ => []
  end.

Definition exchanges (cs : list {X : Type & namecheap.event X})
  : list (Z * http_Request) := flat_map exchange_of cs.

Definition closed (cs : list {X : Type & namecheap.event X})
  : list http_Response := flat_map closed_of cs.

(** ** Calls of one kind inside calls of another *)
Fixpoint translate {E F : Type -> Type} {A : Type} (f : forall X : Type, E X -> F X)
         (m : IO E A) : IO F A :=
  match m with
  | Ret a => Ret a
  | Vis e k => Vis (f _ e) (fun x => translate f (k x))
  end.

(** ** Package [tools]: the adapter of a [DomainChecker] *)
Module tools.

(** The values of the protocol library that this adapter builds, and an
    instant of [time]; [Meta] is always the empty map here. *)
Definition Meta : Set := list (string * string).

Record Annotations : Set := mkAnnotations {
  Audience : list mcp.Role;
  LastModified : string;
  Priority : float64
}.

Record TextContent : Set := mkTextContent {
  Text : string;
  TextContent_Meta : Meta;
  TextContent_Annotations : option Annotations
}.

Inductive Content : Set :=
| TextContentRef (c : TextContent).

Record CallToolResultFor (Out : Type) : Type := mkCallToolResultFor {
  StructuredContent : Out;
  CallToolResultFor_Meta : Meta;
  IsError : bool;
  Content_ : list Content
}.

Arguments mkCallToolResultFor {Out}.
Arguments StructuredContent {Out}.
Arguments CallToolResultFor_Meta {Out}.
Arguments IsError {Out}.
Arguments Content_ {Out}.

Record CallToolParamsFor (In : Type) : Type := mkCallToolParamsFor {
  CallToolParamsFor_Name : string;
  Arguments_ : In
}.

Arguments mkCallToolParamsFor {In}.
Arguments CallToolParamsFor_Name {In}.
Arguments Arguments_ {In}.

Definition time_Time : Set := Z.

Definition time_RFC3339 : string := "2006-01-02T15:04:05Z07:00".

(** The calls of the adapter: those of the service, and [time.Now()]. *)
Inductive event : Type -> Type :=
| Checker (X : Type) (e : namecheap.event X) : event X
| time_Now : event time_Time.

(** [json.Marshal] at [ParamsOut] and [Time.Format], of Go's standard
    library. *)
Class Runtime : Type := {
  json_Marshal : namecheap.ParamsOut -> string * option error;
  time_Format : time_Time -> string -> string
}.

Record NamecheapTool : Type := mkNamecheapTool {
  service : namecheap.DomainChecker
}.

Definition NewNamecheapTool (service : namecheap.DomainChecker) : NamecheapTool :=
  mkNamecheapTool service.

Definition Name (nt : NamecheapTool) : string :=
  namecheap.DomainChecker_Name (service nt).

Definition Description (nt : NamecheapTool) : string :=
  namecheap.DomainChecker_Description (service nt).

Definition Handler {R : Runtime} (nt : NamecheapTool)
           (params : CallToolParamsFor namecheap.ParamsIn)
  : IO event (option (CallToolResultFor namecheap.ParamsOut) * option error) :=
  (start <- trigger time_Now ;;
   (* the deferred [time.Since(start)] runs when the rest returns *)
   out <-
     (r <- translate Checker
             (namecheap.DomainChecker_DomainsCheck (service nt)
                (namecheap.Domains (Arguments_ params))) ;;
      let '(results, err) := r in
      match err with
      | Some err =>
          Ret (None,
               Some (fmt_Errorf "%w: %w"
                       [arg_error namecheap.ErrNamecheapAPIFailed; arg_error err]))
      | None =>
          let output := namecheap.mkParamsOut results in
          let '(jsonData, err) := json_Marshal output in
          match err with
          | Some err =>
              Ret (None,
                   Some (fmt_Errorf "error marshaling results to JSON: %w" [arg_error err]))
          | None =>
              now <- trigger time_Now ;;
              Ret (Some (mkCallToolResultFor output [] false
                           [TextContentRef
                              (mkTextContent jsonData []
                                 (Some (mkAnnotations ["assistant"]
                                          (time_Format now time_RFC3339) 1%float)))]),
                   None)
          end
      end) ;;
   trigger time_Now ;;;
   Ret out)%io.

(** The environment of the service inside an environment of the adapter. *)
Definition checker_env (h : env event) : env namecheap.event :=
  fun (X : Type) (e : namecheap.event X) => h X (Checker X e).

Record DomainToolsFactory : Set := mkDomainToolsFactory {
  logger : zap_Logger
}.

Definition NewDomainChecker (logger : zap_Logger) : DomainToolsFactory :=
  mkDomainToolsFactory logger.

Definition GetNamecheapTool {L : namecheap.Libraries} (logger : zap_Logger)
           (config : namecheap.Config) : option NamecheapTool * option error :=
  match namecheap.NewNamecheapTool logger config with
  | (_, Some err) => (None, Some err)
  | (Some service, None) =>
      (Some (NewNamecheapTool (namecheap.Service_DomainChecker service)), None)
  | (None, None) =>
      (* no service and no error: [namecheap.NewNamecheapTool] never returns it *)
      (None, None)
  end.

Definition DomainToolsFactory_NewNamecheapTool {L : namecheap.Libraries}
           (dtf : DomainToolsFactory) (config : namecheap.Config)
  : option NamecheapTool * option error :=
  match namecheap.NewNamecheapTool (logger dtf) config with
  | (_, Some err) => (None, Some err)
  | (Some service, None) =>
      (Some (NewNamecheapTool (namecheap.Service_DomainChecker service)), None)
  | (None, None) => (None, None)
  end.

End tools.
(** ** Package [main] of [cmd/app] *)
Module app.

Record config : Set := mkConfig {
  LogLevel : string;
  LogFormat : string;
  NamecheapAPIUser : string;
  NamecheapAPIKey : string;
  NamecheapUserName : string;
  NamecheapClientIP : string;
  NamecheapEndpoint : string
}.

(** *** [setupTools] *)

(** A [*mcp.Server], known by its reference. *)
Inductive mcp_Server : Set := server_ref (id : nat).

(** The calls of [setupTools]: lines for the logger, and [mcp.AddTool]
    with the descriptor of a tool and its handler, the method [Handler]
    of the tool.  [Panic] marks the case of no tool and no error, where
    there is no tool to register; [GetNamecheapTool] never returns it. *)
Inductive event : Type -> Type :=
| Info (l : zap_Logger) (msg : string) : event unit
| Warn (l : zap_Logger) (msg : string) (err : error) : event unit
| AddTool (server : mcp_Server) (name description : string)
          (handler : tools.NamecheapTool) : event unit
| Panic (msg : string) : event unit.

Definition setupTools {L : namecheap.Libraries} (mcpServer : mcp_Server)
           (logger : zap_Logger) (cfg : config) : IO event unit :=
  let namecheapConfig :=
    namecheap.mkConfig (NamecheapAPIUser cfg) (NamecheapAPIKey cfg)
                       (NamecheapUserName cfg) (NamecheapClientIP cfg)
                       (NamecheapEndpoint cfg) in
  if negb (namecheap.APIUser namecheapConfig =? "") &&
     negb (namecheap.APIKey namecheapConfig =? "") &&
     negb (namecheap.UserName namecheapConfig =? "") &&
     negb (namecheap.ClientIP namecheapConfig =? "")
  then
    match tools.GetNamecheapTool logger namecheapConfig with
    | (_, Some err) => trigger (Warn logger "Failed to create Namecheap tool" err)
    | (Some namecheapTool, None) =>
        (trigger (AddTool mcpServer (tools.Name namecheapTool)
                          (tools.Description namecheapTool) namecheapTool) ;;;
         trigger (Info logger "Namecheap tool enabled"))%io
    | (None, None) => trigger (Panic "no tool and no error")
    end
  else trigger (Info logger "Namecheap tool disabled - missing configuration").

(** *** [corsMiddleware] *)

(** An [http.Header], a [map[string][]string] whose keys are in the
    canonical form of [textproto.CanonicalMIMEHeaderKey], which is left
    open. *)
Definition http_Header : Set := list (string * list string).

Class Textproto : Type := {
  CanonicalMIMEHeaderKey : string -> string
}.

(** [h.Set(key, value)] and [h.Get(key)]. *)
Definition Header_Set {T : Textproto} (h : http_Header) (key value : string) : http_Header :=
  url.store h (CanonicalMIMEHeaderKey key) [value].

Definition Header_Get {T : Textproto} (h : http_Header) (key : string) : string :=
  match url.lookup h (CanonicalMIMEHeaderKey key) with
  | [] => ""
  | x :: _ => x
  end.

(** What a handler does to an [http.ResponseWriter]: the header map,
    which it changes in place, and its calls of [WriteHeader], in order. *)
Record ResponseWriter : Set := mkResponseWriter {
  Header : http_Header;
  WriteHeader_calls : list Z
}.

Definition WriteHeader (w : ResponseWriter) (statusCode : Z) : ResponseWriter :=
  mkResponseWriter (Header w) (WriteHeader_calls w ++ [statusCode])%list.

Definition set_Header {T : Textproto} (w : ResponseWriter) (key value : string)
  : ResponseWriter :=
  mkResponseWriter (Header_Set (Header w) key value) (WriteHeader_calls w).

(** An [http.Handler]: what [ServeHTTP] does to the writer. *)
Definition http_Handler : Set := ResponseWriter -> http_Request -> ResponseWriter.

Definition StatusOK : Z := 200.
Definition MethodOptions : string := "OPTIONS".

Definition corsMiddleware {T : Textproto} (next : http_Handler) : http_Handler :=
  fun (w : ResponseWriter) (r : http_Request) =>
    let w := set_Header w "Access-Control-Allow-Origin" "*" in
    let w := set_Header w "Access-Control-Allow-Methods" "GET, POST, DELETE, OPTIONS" in
    let w := set_Header w "Access-Control-Allow-Headers"
                        "Content-Type, Authorization, Mcp-Protocol-Version, Mcp-Session-Id" in
    let w := set_Header w "Access-Control-Expose-Headers" "Mcp-Session-Id" in
    if req_Method r =? MethodOptions then WriteHeader w StatusOK
    else next w r.

(** The four headers of [corsMiddleware]. *)
Definition corsHeaders : list (string * string) :=
  [("Access-Control-Allow-Origin", "*");
   ("Access-Control-Allow-Methods", "GET, POST, DELETE, OPTIONS");
   ("Access-Control-Allow-Headers",
    "Content-Type, Authorization, Mcp-Protocol-Version, Mcp-Session-Id");
   ("Access-Control-Expose-Headers", "Mcp-Session-Id")].

End app.
(** ** Stand-ins for evaluating the adapter of [tools] and [cmd/app]

    A JSON encoder that writes the names of the domains only, a clock
    that shows one instant and a format that writes it as seconds, an
    environment that answers the service as [example_env] does, and the
    canonical form of a header key that is the key itself (which it is
    for the four keys of [corsMiddleware]). *)
#[export] Instance example_runtime : tools.Runtime :=
  {| tools.json_Marshal := fun o =>
       ("[" ++ String.concat "," (map namecheap.Result.Domain (namecheap.Results o)) ++ "]",
        None);
     tools.time_Format := fun t _ => if (t =? 0)%Z then "1970-01-01T00:00:00Z" else "later" |}.

Definition example_tools_env (answer : error + http_Response) : env tools.event :=
  fun (X : Type) (e : tools.event X) =>
    match e in tools.event T return T with
    | tools.Checker _ e' => example_env answer _ e'
    | tools.time_Now => 0%Z
    end.

Definition example_app_env : env app.event :=
  fun (X : Type) (e : app.event X) =>
    match e in app.event T return T with
    | app.Info _ _ => tt
    | app.Warn _ _ _ => tt
    | app.AddTool _ _ _ _ => tt
    | app.Panic _ => tt
    end.

Definition example_textproto : app.Textproto :=
  {| app.CanonicalMIMEHeaderKey := fun key => key |}.


(** * Properties *)

(** ** Running a computation *)

Lemma run_bind {E : Type -> Type} {A B : Type} (h : env E) (m : IO E A) (f : A -> IO E B) :
  run h (bind m f) = run h (f (run h m)).
Proof.
  induction m as [a | X e k IH]; simpl.
  - reflexivity.
  - apply IH.
Qed.

Lemma calls_bind {E : Type -> Type} {A B : Type} (h : env E) (m : IO E A) (f : A -> IO E B) :
  calls h (bind m f) = (calls h m ++ calls h (f (run h m)))%list.
Proof.
  induction m as [a | X e k IH]; simpl.
  - reflexivity.
  - now rewrite IH.
Qed.

(** ** [strconv.ParseFloat] on the strings of the repository's tests *)

Example strconv_ParseFloat_tests :
  strconv.ParseFloat "100" = (100%float, None) /\
  strconv.ParseFloat "10.5" = (10.5%float, None) /\
  strconv.ParseFloat "0.01" = (0.01%float, None) /\
  strconv.ParseFloat "0" = (0%float, None) /\
  strconv.ParseFloat "-10.5" = ((-10.5)%float, None) /\
  strconv.ParseFloat "1000.00" = (1000%float, None) /\
  strconv.ParseFloat "0.18" = (0.18%float, None) /\
  snd (strconv.ParseFloat "invalid") = Some (strconv.syntaxError "ParseFloat" "invalid") /\
  snd (strconv.ParseFloat "10.5abc") = Some (strconv.syntaxError "ParseFloat" "10.5abc") /\
  strconv.ParseFloat "1e400" = (infinity, Some (strconv.rangeError "ParseFloat" "1e400")).
Proof. repeat split; vm_compute; reflexivity. Qed.

(** ** The mapping of the records *)

Section ClientProperties.
Context {L : namecheap.Libraries}.
Import namecheap.

Lemma parseResults_app (n : Service) (rs : list DomainCheckResult.t) (acc : list Result.t) :
  fold_left (fun results d => (results ++ [parseResult d])%list) rs acc
  = (acc ++ map parseResult rs)%list.
Proof.
  revert acc; induction rs as [| d rs IH]; intros acc; simpl.
  - now rewrite app_nil_r.
  - rewrite IH, <- app_assoc. reflexivity.
Qed.

(** The loop maps every record by itself, in order. *)
Lemma parseResults_map (n : Service) (rs : list DomainCheckResult.t) :
  parseResults n rs = map parseResult rs.
Proof. unfold parseResults. now rewrite parseResults_app. Qed.

Lemma parseResults_length (n : Service) (rs : list DomainCheckResult.t) :
  List.length (parseResults n rs) = List.length rs.
Proof. rewrite parseResults_map. apply length_map. Qed.

Lemma parseResults_nth (n : Service) (rs : list DomainCheckResult.t) (i : nat)
      (d : DomainCheckResult.t) :
  nth_error rs i = Some d ->
  nth_error (parseResults n rs) i = Some (parseResult d).
Proof. intros H. rewrite parseResults_map. now apply map_nth_error. Qed.

Lemma parseResult_fields (d : DomainCheckResult.t) :
  let r := parseResult d in
  Result.Domain r = DomainCheckResult.Domain d /\
  Result.Available r = (DomainCheckResult.Available d =? "true") /\
  Result.IsPremiumName r = (DomainCheckResult.IsPremiumName d =? "true") /\
  Result.PremiumRegistrationPrice r =
    (if DomainCheckResult.IsPremiumName d =? "true"
     then parsed_or_zero (DomainCheckResult.PremiumRegistrationPrice d) else 0%float) /\
  Result.PremiumRenewalPrice r =
    (if DomainCheckResult.IsPremiumName d =? "true"
     then parsed_or_zero (DomainCheckResult.PremiumRenewalPrice d) else 0%float) /\
  Result.IcannFee r = parsed_or_zero (DomainCheckResult.IcannFee d) /\
  Result.EapFee r = parsed_or_zero (DomainCheckResult.EapFee d) /\
  Result.Error r =
    (if negb (DomainCheckResult.ErrorNo d =? "0") && negb (DomainCheckResult.Description d =? "")
     then DomainCheckResult.Description d else "").
Proof.
  unfold parseResult, parsed_or_zero.
  destruct (negb (DomainCheckResult.ErrorNo d =? "0") &&
            negb (DomainCheckResult.Description d =? ""));
    destruct (DomainCheckResult.IsPremiumName d =? "true"); simpl;
    destruct (ParseFloat (DomainCheckResult.IcannFee d)) as [v1 [e1|]];
    destruct (ParseFloat (DomainCheckResult.EapFee d)) as [v2 [e2|]];
    try (destruct (ParseFloat (DomainCheckResult.PremiumRegistrationPrice d)) as [v3 [e3|]];
         destruct (ParseFloat (DomainCheckResult.PremiumRenewalPrice d)) as [v4 [e4|]]);
    simpl; repeat split; reflexivity.
Qed.



(** The HTTP exchange, once the URL and the request are built, the
    server has answered and the answer is decoded. *)
Lemma run_checkDomains (h : env event) (n : Service) (domains : list string)
      (reqURL : string) (req : http_Request) (resp : http_Response)
      (apiResp : APIResponse.t) :
  buildRequestURL n (Endpoint (config n)) (String.concat "," domains) = (reqURL, None) ->
  http_NewRequestWithContext "GET" reqURL = inr req ->
  h _ (Do httpTimeoutSeconds req) = inr resp ->
  xml_Decode (resp_Body resp) = inr apiResp ->
  run h (checkDomains n domains) =
    if negb (APIResponse.Status apiResp =? "OK") then
      ([], Some (fmt_Errorf "%w: %s"
                   [arg_error ErrAPIError;
                    arg_string match Errors.Error (APIResponse.Errors apiResp) with
                               | e :: _ => Error.Message e
                               | [] => "unknown error"
                               end]))
    else
      (parseResults n (CommandResponse.DomainCheckResults
                         (APIResponse.CommandResponse apiResp)), None).
Proof.
  intros Hurl Hreq Hdo Hxml.
  unfold checkDomains. simpl. rewrite Hurl. simpl. rewrite Hreq. simpl.
  rewrite Hdo. rewrite run_bind. rewrite Hxml.
  destruct (negb (APIResponse.Status apiResp =? "OK")); reflexivity.
Qed.

Lemma DomainsCheck_in_range (n : Service) (domains : list string) :
  (1 <= List.length domains <= maxDomainsPerCheck)%nat ->
  DomainsCheck n domains = checkDomains n domains.
Proof.
  intros [H1 H2]. unfold DomainsCheck.
  destruct (Nat.eqb_spec (List.length domains) 0) as [E | _]; [lia |].
  destruct (Nat.ltb_spec maxDomainsPerCheck (List.length domains)) as [E | _]; [lia |].
  reflexivity.
Qed.

End ClientProperties.

Import namecheap.

(** ** Premium prices *)

(** C1: in the results of [parseResults], a record whose [IsPremiumName]
    attribute is not exactly ["true"] is mapped to a result with
    [IsPremiumName = false] and both premium prices zero, whatever the
    premium price attributes of the record hold. *)
Theorem C1_premium_suppression :
  forall (L : Libraries) (n : Service) (rs : list DomainCheckResult.t)
         (i : nat) (d : DomainCheckResult.t),
    nth_error rs i = Some d ->
    DomainCheckResult.IsPremiumName d <> "true" ->
    exists r : Result.t,
      nth_error (parseResults n rs) i = Some r /\
      Result.IsPremiumName r = false /\
      Result.PremiumRegistrationPrice r = 0%float /\
      Result.PremiumRenewalPrice r = 0%float.
Proof.
  intros L n rs i d Hi Hp.
  exists (parseResult d). split; [now apply parseResults_nth |].
  destruct (parseResult_fields d) as (_ & _ & Hprem & Hreg & Hren & _).
  apply String.eqb_neq in Hp. rewrite Hp in Hprem, Hreg, Hren. auto.
Qed.

Lemma C1_premium_suppression_witness :
  exists r : Result.t,
    nth_error (@parseResults go example_service [regular_com]) 0 = Some r /\
    Result.IsPremiumName r = false /\
    Result.PremiumRegistrationPrice r = 0%float /\
    Result.PremiumRenewalPrice r = 0%float.
Proof.
  apply (C1_premium_suppression go example_service [regular_com] 0 regular_com).
  - reflexivity.
  - discriminate.
Defined.

(** ** The error of a domain *)

(** [parseResults] on a record with the code ["1"], on one without
    [ErrorNo], on one with the code ["00"] and on one with the code
    ["0"]: all but the last carry the description as their error. *)
Example parseResults_error_codes :
  @parseResults go example_service
    [error_com; absent_code_com; zero_code_com;
     DomainCheckResult.mk "fine.com" "true" "" "" "" "" "" "0" "Domain check failed"]
  = [Result.mk "error.com" false false 0 0 0 0 "Domain check failed";
     Result.mk "absent.com" false false 0 0 0 0 "Domain check failed";
     Result.mk "zero.com" false false 0 0 0 0 "Domain check failed";
     Result.mk "fine.com" true false 0 0 0 0 ""]%float.
Proof. vm_compute. reflexivity. Qed.

(** A non-zero error code of the specification passes the test of the
    code, [ErrorNo != "0"]; the converse fails on the empty text and on
    the other spellings of zero. *)
Lemma spec_nonzero_error_code_passes (s : string) :
  spec_nonzero_error_code s = true -> s <> "0".
Proof. intros H ->. discriminate H. Qed.

(** C5, as the specification states it, fails: a record whose [ErrorNo]
    attribute is absent carries no error code, and yet its result has
    the description of the record as its [Error], since the code tests
    [ErrorNo != "0"] on the text of the attribute. *)
Lemma C5_counterexample :
  ~ (forall (L : Libraries) (n : Service) (rs : list DomainCheckResult.t)
            (i : nat) (d : DomainCheckResult.t) (r : Result.t),
        nth_error rs i = Some d ->
        nth_error (parseResults n rs) i = Some r ->
        Result.Error r <> "" ->
        spec_nonzero_error_code (DomainCheckResult.ErrorNo d) = true /\
        DomainCheckResult.Description d <> "").
Proof.
  intros H.
  destruct (H go example_service [absent_code_com] 0%nat absent_code_com
              (Result.mk "absent.com" false false 0 0 0 0 "Domain check failed")%float
              eq_refl eq_refl) as [Hcode _].
  - discriminate.
  - discriminate Hcode.
Qed.

(** C5: the [Error] of a result is the [Description] of its record when
    the text of [ErrorNo] is not ["0"] and [Description] is not empty,
    and it is empty otherwise: with [ErrorNo = "0"] it is never set, and
    with an empty [Description] neither.  So the [Error] of a result is
    determined by these two attributes of its record, whatever the
    status of the envelope; every record is mapped whatever the errors
    of the others, and a call whose envelope has the status ["OK"]
    returns all the results and no error. *)
Theorem C5_domain_error :
  forall (L : Libraries) (n : Service) (rs : list DomainCheckResult.t),
    List.length (parseResults n rs) = List.length rs /\
    (forall (i : nat) (d : DomainCheckResult.t),
        nth_error rs i = Some d ->
        exists r : Result.t,
          nth_error (parseResults n rs) i = Some r /\
          (Result.Error r <> "" ->
           DomainCheckResult.ErrorNo d <> "0" /\
           DomainCheckResult.Description d <> "" /\
           Result.Error r = DomainCheckResult.Description d) /\
          (DomainCheckResult.ErrorNo d <> "0" ->
           DomainCheckResult.Description d <> "" ->
           Result.Error r = DomainCheckResult.Description d) /\
          (DomainCheckResult.ErrorNo d = "0" -> Result.Error r = "") /\
          (DomainCheckResult.Description d = "" -> Result.Error r = "")) /\
    (forall (h : env event) (domains : list string) (reqURL : string)
            (req : http_Request) (resp : http_Response) (apiResp : APIResponse.t),
        (1 <= List.length domains <= maxDomainsPerCheck)%nat ->
        buildRequestURL n (Endpoint (config n)) (String.concat "," domains) = (reqURL, None) ->
        http_NewRequestWithContext "GET" reqURL = inr req ->
        h _ (Do httpTimeoutSeconds req) = inr resp ->
        xml_Decode (resp_Body resp) = inr apiResp ->
        APIResponse.Status apiResp = "OK" ->
        CommandResponse.DomainCheckResults (APIResponse.CommandResponse apiResp) = rs ->
        run h (DomainsCheck n domains) = (parseResults n rs, None)).
Proof.
  intros L n rs. split; [apply parseResults_length |]. split.
  - intros i d Hi. exists (parseResult d). split; [now apply parseResults_nth |].
    destruct (parseResult_fields d) as (_ & _ & _ & _ & _ & _ & _ & Herr).
    rewrite Herr.
    destruct (String.eqb_spec (DomainCheckResult.ErrorNo d) "0") as [E0 | E0];
      destruct (String.eqb_spec (DomainCheckResult.Description d) "") as [E1 | E1];
      simpl; repeat split; try congruence; intros; congruence.
  - intros h domains reqURL req resp apiResp Hlen Hurl Hreq Hdo Hxml Hok Hrs.
    rewrite (DomainsCheck_in_range n domains Hlen).
    rewrite (run_checkDomains h n domains reqURL req resp apiResp Hurl Hreq Hdo Hxml).
    rewrite Hok, Hrs. reflexivity.
Qed.

Lemma C5_domain_error_witness :
  exists r : Result.t,
    nth_error (@parseResults go example_service [regular_com; error_com; absent_code_com]) 2
    = Some r /\
    (Result.Error r <> "" ->
     DomainCheckResult.ErrorNo absent_code_com <> "0" /\
     DomainCheckResult.Description absent_code_com <> "" /\
     Result.Error r = DomainCheckResult.Description absent_code_com) /\
    (DomainCheckResult.ErrorNo absent_code_com <> "0" ->
     DomainCheckResult.Description absent_code_com <> "" ->
     Result.Error r = DomainCheckResult.Description absent_code_com) /\
    (DomainCheckResult.ErrorNo absent_code_com = "0" -> Result.Error r = "") /\
    (DomainCheckResult.Description absent_code_com = "" -> Result.Error r = "").
Proof.
  apply (proj1 (proj2 (C5_domain_error go example_service
                         [regular_com; error_com; absent_code_com])) 2%nat absent_code_com).
  reflexivity.
Defined.

(** ** Numeric attributes *)

Example parseResults_tests :
  @parseResults go example_service [regular_com; error_com; premium_com; example_com]
  = [Result.mk "regular.com" true false 0 0 0 0 "";
     Result.mk "error.com" false false 0 0 0 0 "Domain check failed";
     Result.mk "premium.com" true true 1000 500 0 0 "";
     Result.mk "example.com" true false 0 0 0.18 10 ""]%float.
Proof. vm_compute. reflexivity. Qed.

(** [strconv.ParseFloat] on texts that are not decimal numbers and that
    it accepts, and [parseResults] on records with such fees and with a
    decimal fee beyond the range of [float64]. *)
Example strconv_ParseFloat_spellings :
  strconv.ParseFloat "Inf" = (infinity, None) /\
  strconv.ParseFloat "NaN" = (nan, None) /\
  strconv.ParseFloat "0x1p-2" = (0.25%float, None) /\
  spec_decimal_string "Inf" = false /\
  spec_decimal_string "NaN" = false /\
  spec_decimal_string "0x1p-2" = false /\
  spec_decimal_string "1e400" = true /\
  spec_decimal_string "100" = true /\
  spec_decimal_string "10.5" = true /\
  spec_decimal_string "-10.5" = true /\
  spec_decimal_string "invalid" = false /\
  spec_decimal_string "10.5abc" = false.
Proof. repeat split; vm_compute; reflexivity. Qed.




(** ** The sign of the numeric fields *)

(** C10, as the specification states it, fails: the fee ["-10.5"] parses
    without error and passes into the result, which is negative. *)
Lemma C10_counterexample :
  ~ (forall (L : Libraries) (n : Service) (rs : list DomainCheckResult.t) (r : Result.t),
        In r (parseResults n rs) ->
        (0 <=? Result.PremiumRegistrationPrice r)%float = true /\
        (0 <=? Result.PremiumRenewalPrice r)%float = true /\
        (0 <=? Result.IcannFee r)%float = true /\
        (0 <=? Result.EapFee r)%float = true).
Proof.
  intros H.
  destruct (H go example_service [negative_com]
              (Result.mk "negative.com" true false 0 0 (-10.5) 0 "")%float)
    as (_ & _ & Hicann & _).
  - vm_compute. left. reflexivity.
  - vm_compute in Hicann. discriminate.
Qed.

(** C10 (amended): when every numeric attribute that the mapping reads
    and that parses without error parses to a value that is at least
    zero, the four numeric fields of every result are at least zero. *)
Theorem C10_fields_nonnegative :
  forall (L : Libraries) (n : Service) (rs : list DomainCheckResult.t),
    (forall d : DomainCheckResult.t,
        In d rs ->
        (forall v, ParseFloat (DomainCheckResult.IcannFee d) = (v, None) ->
                   (0 <=? v)%float = true) /\
        (forall v, ParseFloat (DomainCheckResult.EapFee d) = (v, None) ->
                   (0 <=? v)%float = true) /\
        (DomainCheckResult.IsPremiumName d = "true" ->
         (forall v, ParseFloat (DomainCheckResult.PremiumRegistrationPrice d) = (v, None) ->
                    (0 <=? v)%float = true) /\
         (forall v, ParseFloat (DomainCheckResult.PremiumRenewalPrice d) = (v, None) ->
                    (0 <=? v)%float = true))) ->
    forall r : Result.t,
      In r (parseResults n rs) ->
      (0 <=? Result.PremiumRegistrationPrice r)%float = true /\
      (0 <=? Result.PremiumRenewalPrice r)%float = true /\
      (0 <=? Result.IcannFee r)%float = true /\
      (0 <=? Result.EapFee r)%float = true.
Proof.
  intros L n rs Hrs r Hr.
  rewrite parseResults_map in Hr. apply in_map_iff in Hr. destruct Hr as (d & <- & Hd).
  destruct (Hrs d Hd) as (Hicann & Heap & Hprem).
  destruct (parseResult_fields d) as (_ & _ & _ & Hreg & Hren & Hi & He & _).
  assert (Hnn : forall s, (forall v, ParseFloat s = (v, None) -> (0 <=? v)%float = true) ->
                          (0 <=? parsed_or_zero s)%float = true).
  { intros s Hs. unfold parsed_or_zero.
    destruct (ParseFloat s) as [v [e|]] eqn:E; [reflexivity | now apply Hs]. }
  rewrite Hreg, Hren, Hi, He.
  destruct (String.eqb_spec (DomainCheckResult.IsPremiumName d) "true") as [Ep | Ep].
  - destruct (Hprem Ep) as [H1 H2]. repeat split; now apply Hnn.
  - repeat split; try reflexivity; now apply Hnn.
Qed.

Lemma C10_fields_nonnegative_witness :
  (0 <=? Result.PremiumRegistrationPrice (@parseResult go premium_com))%float = true /\
  (0 <=? Result.PremiumRenewalPrice (@parseResult go premium_com))%float = true /\
  (0 <=? Result.IcannFee (@parseResult go premium_com))%float = true /\
  (0 <=? Result.EapFee (@parseResult go premium_com))%float = true.
Proof.
  apply (C10_fields_nonnegative go example_service [premium_com; example_com]).
  - intros d [<- | [<- | []]]; repeat split;
      intros v Hv; vm_compute in Hv; inversion Hv; reflexivity.
  - left. reflexivity.
Defined.

(** ** Construction *)

Lemma NewNamecheapTool_present (logger : zap_Logger) (cfg : Config) :
  APIUser cfg <> "" -> APIKey cfg <> "" -> UserName cfg <> "" -> ClientIP cfg <> "" ->
  NewNamecheapTool logger cfg = (Some (mkService logger cfg), None).
Proof.
  intros Hu Hk Hn Hi. unfold NewNamecheapTool.
  apply String.eqb_neq in Hu, Hk, Hn, Hi. now rewrite Hu, Hk, Hn, Hi.
Qed.

(** C3: [NewNamecheapTool] fails, with [ErrMissingAPICredentials] and no
    service, exactly when [APIUser], [APIKey], [UserName] or [ClientIP]
    is empty; otherwise it returns the service and no error.  The
    [Endpoint] is not looked at: it changes nothing in the error, and an
    empty endpoint with the four credentials present is accepted. *)
Theorem C3_missing_credentials :
  forall (logger : zap_Logger) (cfg : Config),
    (NewNamecheapTool logger cfg = (None, Some ErrMissingAPICredentials) <->
     (APIUser cfg = "" \/ APIKey cfg = "" \/ UserName cfg = "" \/ ClientIP cfg = "")) /\
    (snd (NewNamecheapTool logger cfg) <> None <->
     (APIUser cfg = "" \/ APIKey cfg = "" \/ UserName cfg = "" \/ ClientIP cfg = "")) /\
    (NewNamecheapTool logger cfg = (Some (mkService logger cfg), None) <->
     (APIUser cfg <> "" /\ APIKey cfg <> "" /\ UserName cfg <> "" /\ ClientIP cfg <> "")) /\
    (forall endpoint : string,
        snd (NewNamecheapTool logger
               (mkConfig (APIUser cfg) (APIKey cfg) (UserName cfg) (ClientIP cfg) endpoint))
        = snd (NewNamecheapTool logger cfg)) /\
    (APIUser cfg <> "" -> APIKey cfg <> "" -> UserName cfg <> "" -> ClientIP cfg <> "" ->
     Endpoint cfg = "" ->
     NewNamecheapTool logger cfg = (Some (mkService logger cfg), None)).
Proof.
  intros logger cfg. unfold NewNamecheapTool.
  destruct cfg as [u k n i e]; simpl.
  destruct (String.eqb_spec u "") as [Eu | Eu];
    destruct (String.eqb_spec k "") as [Ek | Ek];
    destruct (String.eqb_spec n "") as [En | En];
    destruct (String.eqb_spec i "") as [Ei | Ei]; simpl;
    repeat split; intros; try reflexivity; try discriminate; try congruence;
    try tauto; try (intuition congruence).
Qed.

Lemma C3_missing_credentials_witness :
  NewNamecheapTool (logger_ref 0) (mkConfig "user" "key" "username" "127.0.0.1" "")
  = (Some (mkService (logger_ref 0) (mkConfig "user" "key" "username" "127.0.0.1" "")), None).
Proof.
  apply (proj2 (proj2 (proj2 (proj2
           (C3_missing_credentials (logger_ref 0)
              (mkConfig "user" "key" "username" "127.0.0.1" ""))))));
    simpl; solve [discriminate | reflexivity].
Defined.

(** ** The endpoint *)

(** C9, as the specification states it, fails: the service built from a
    configuration with an empty endpoint has an empty endpoint, not the
    default production URL. *)
Lemma C9_counterexample :
  ~ (forall (logger : zap_Logger) (cfg : Config),
        APIUser cfg <> "" -> APIKey cfg <> "" -> UserName cfg <> "" -> ClientIP cfg <> "" ->
        Endpoint cfg = "" ->
        exists n : Service,
          NewNamecheapTool logger cfg = (Some n, None) /\
          Endpoint (config n) = defaultNamecheapEndpoint).
Proof.
  intros H.
  destruct (H (logger_ref 0) (mkConfig "user" "key" "username" "127.0.0.1" ""))
    as (n & Hn & He); simpl; try discriminate; try reflexivity.
  vm_compute in Hn. inversion Hn; subst n. vm_compute in He. discriminate.
Qed.

(** C9 (amended): the service built from a configuration with the four
    credentials holds the endpoint of the configuration as it is, an
    empty one too; a check then parses that endpoint: if it does not
    parse the check fails with that error and makes no HTTP exchange,
    and if it parses the request URL is that URL with the query set, and
    the HTTP exchange is made with the request for it. *)
Theorem C9_endpoint_kept :
  forall (L : Libraries) (logger : zap_Logger) (cfg : Config),
    APIUser cfg <> "" -> APIKey cfg <> "" -> UserName cfg <> "" -> ClientIP cfg <> "" ->
    exists n : Service,
      NewNamecheapTool logger cfg = (Some n, None) /\
      Endpoint (config n) = Endpoint cfg /\
      forall (h : env event) (domains : list string),
        (1 <= List.length domains <= maxDomainsPerCheck)%nat ->
        (forall err : error,
            url_Parse (Endpoint cfg) = inl err ->
            run h (DomainsCheck n domains)
            = ([], Some (fmt_Errorf "failed to build request URL: %w" [arg_error err])) /\
            forall (timeout : Z) (req : http_Request),
              ~ In (existT _ _ (Do timeout req)) (calls h (DomainsCheck n domains))) /\
        (forall u : url.URL,
            url_Parse (Endpoint cfg) = inr u ->
            exists q : string,
              buildRequestURL n (Endpoint (config n)) (String.concat "," domains)
              = (URL_String (url.set_RawQuery u q), None) /\
              forall req : http_Request,
                http_NewRequestWithContext "GET" (URL_String (url.set_RawQuery u q)) = inr req ->
                In (existT _ _ (Do httpTimeoutSeconds req)) (calls h (DomainsCheck n domains))).
Proof.
  intros L logger cfg Hu Hk Hn Hi.
  exists (mkService logger cfg). split; [| split; [reflexivity |]].
  - now apply NewNamecheapTool_present.
  - intros h domains Hlen. rewrite (DomainsCheck_in_range _ domains Hlen). split.
    + intros err Herr. unfold checkDomains, buildRequestURL. simpl. rewrite Herr. simpl.
      split; [reflexivity |].
      intros timeout req [Hc | []]. discriminate Hc.
    + intros u Hus. unfold checkDomains, buildRequestURL. simpl. rewrite Hus.
      eexists. split; [reflexivity |].
      intros req Hreq. simpl. rewrite Hreq. simpl. right. right. left. reflexivity.
Qed.

Lemma C9_endpoint_kept_witness :
  exists n : Service,
    NewNamecheapTool (logger_ref 0) (mkConfig "user" "key" "username" "127.0.0.1" "")
    = (Some n, None) /\
    Endpoint (config n) = "".
Proof.
  destruct (C9_endpoint_kept go (logger_ref 0)
              (mkConfig "user" "key" "username" "127.0.0.1" ""))
    as (n & Hnew & Hend & _); simpl; try discriminate.
  exists n. split; assumption.
Defined.

(** ** The number of domains *)

(** C2: [DomainsCheck] returns [ErrMissingDomains] for no domain and
    [ErrMaxDomainsExceeded] for more than 50, in both cases at once,
    with no call to the outside world, so with no HTTP exchange; for 1
    to 50 domains it is [checkDomains], which builds the request URL:
    when that fails the call fails with the error of the construction,
    and when it succeeds the URL reaches the logger. *)
Theorem C2_domain_count :
  forall (L : Libraries) (n : Service) (domains : list string),
    maxDomainsPerCheck = 50%nat /\
    (List.length domains = 0%nat ->
     DomainsCheck n domains = Ret ([], Some ErrMissingDomains)) /\
    ((50 < List.length domains)%nat ->
     DomainsCheck n domains = Ret ([], Some ErrMaxDomainsExceeded)) /\
    (List.length domains = 0%nat \/ (50 < List.length domains)%nat ->
     forall h : env event, calls h (DomainsCheck n domains) = []) /\
    ((1 <= List.length domains <= 50)%nat ->
     DomainsCheck n domains = checkDomains n domains /\
     forall h : env event,
       (forall (s : string) (err : error),
           buildRequestURL n (Endpoint (config n)) (String.concat "," domains)
           = (s, Some err) ->
           run h (DomainsCheck n domains)
           = ([], Some (fmt_Errorf "failed to build request URL: %w" [arg_error err]))) /\
       (forall reqURL : string,
           buildRequestURL n (Endpoint (config n)) (String.concat "," domains)
           = (reqURL, None) ->
           In (existT _ _ (Debug (logger n) "Making Namecheap API call"
                             [zap_String "url" reqURL;
                              zap_Int "domain_count" (Z.of_nat (List.length domains))]))
              (calls h (DomainsCheck n domains)))).
Proof.
  intros L n domains. split; [reflexivity |].
  assert (H0 : List.length domains = 0%nat ->
               DomainsCheck n domains = Ret ([], Some ErrMissingDomains)).
  { intros E. unfold DomainsCheck. now rewrite E. }
  assert (H50 : (50 < List.length domains)%nat ->
                DomainsCheck n domains = Ret ([], Some ErrMaxDomainsExceeded)).
  { intros E. unfold DomainsCheck.
    destruct (Nat.eqb_spec (List.length domains) 0) as [E0 | _]; [lia |].
    destruct (Nat.ltb_spec maxDomainsPerCheck (List.length domains)) as [_ | E1];
      [reflexivity | unfold maxDomainsPerCheck in E1; lia]. }
  split; [exact H0 |]. split; [exact H50 |]. split.
  - intros [E | E] h; [rewrite (H0 E) | rewrite (H50 E)]; reflexivity.
  - intros Hlen. rewrite (DomainsCheck_in_range n domains Hlen).
    split; [reflexivity |]. intros h. split.
    + intros s err Hb. unfold checkDomains. simpl. rewrite Hb. reflexivity.
    + intros reqURL Hb. unfold checkDomains. simpl. rewrite Hb. simpl.
      right. left. reflexivity.
Qed.

Lemma C2_domain_count_witness :
  @DomainsCheck go example_service [] = Ret ([], Some ErrMissingDomains) /\
  @DomainsCheck go example_service (repeat "example.com" 51)
  = Ret ([], Some ErrMaxDomainsExceeded) /\
  @DomainsCheck go example_service ["example.com"]
  = @checkDomains go example_service ["example.com"].
Proof.
  split; [| split].
  - apply (proj1 (proj2 (C2_domain_count go example_service []))). reflexivity.
  - apply (proj1 (proj2 (proj2 (C2_domain_count go example_service
                                   (repeat "example.com" 51))))).
    simpl. lia.
  - apply (proj2 (proj2 (proj2 (proj2 (C2_domain_count go example_service
                                          ["example.com"]))))).
    simpl. lia.
Defined.

(** ** The status of the envelope *)

(** A call that succeeds: the two lines for the logger, the HTTP
    exchange, the line with the results, and the body closed at the end;
    the error of a domain is in its result and the call has no error. *)
Example DomainsCheck_tests :
  let L := example_libraries (inr ok_envelope) in
  let h := example_env (inr (mkResponse 200 "<ApiResponse Status='OK'/>")) in
  let n := mkService (logger_ref 0)
             (mkConfig "user" "key" "username" "127.0.0.1" "https://host/xml.response") in
  let reqURL := "https://host/xml.response?ApiKey=key&ApiUser=user&ClientIp=127.0.0.1&Command=namecheap.domains.check&DomainList=error.com%2Cexample.com&UserName=username" in
  let req := mkRequest "GET"
               (url.mkURL "" "" None "" "https://host/xml.response" "" false false
                  "ApiKey=key&ApiUser=user&ClientIp=127.0.0.1&Command=namecheap.domains.check&DomainList=error.com%2Cexample.com&UserName=username" "" "") in
  let results := [Result.mk "error.com" false false 0 0 0 0 "Domain check failed";
                  Result.mk "example.com" true false 0 0 0.18 10 ""]%float in
  run h (@DomainsCheck L n ["error.com"; "example.com"]) = (results, None) /\
  calls h (@DomainsCheck L n ["error.com"; "example.com"])
  = [existT _ _ (Debug (logger_ref 0) "Checking domains with Namecheap API"
                   [zap_Strings "domains" ["error.com"; "example.com"]]);
     existT _ _ (Debug (logger_ref 0) "Making Namecheap API call"
                   [zap_String "url" reqURL; zap_Int "domain_count" 2]);
     existT _ _ (Do 30 req);
     existT _ _ (Debug (logger_ref 0) "Domain check completed"
                   [zap_Int "domains_checked" 2; zap_Any "results" results]);
     existT _ _ (Close (mkResponse 200 "<ApiResponse Status='OK'/>"))].
Proof. split; vm_compute; reflexivity. Qed.

(** C4: when the envelope that is decoded has a status other than
    ["OK"], the check returns no result and an error that wraps
    [ErrAPIError] and carries the message of the first entry of the
    error list, or ["unknown error"] when the list is empty. *)
Theorem C4_upstream_error :
  forall (L : Libraries) (h : env event) (n : Service) (domains : list string)
         (reqURL : string) (req : http_Request) (resp : http_Response)
         (apiResp : APIResponse.t),
    (1 <= List.length domains <= maxDomainsPerCheck)%nat ->
    buildRequestURL n (Endpoint (config n)) (String.concat "," domains) = (reqURL, None) ->
    http_NewRequestWithContext "GET" reqURL = inr req ->
    h _ (Do httpTimeoutSeconds req) = inr resp ->
    xml_Decode (resp_Body resp) = inr apiResp ->
    APIResponse.Status apiResp <> "OK" ->
    exists (errorMsg : string) (err : error),
      run h (DomainsCheck n domains) = ([], Some err) /\
      err = fmt_Errorf "%w: %s" [arg_error ErrAPIError; arg_string errorMsg] /\
      errors_Is err ErrAPIError = true /\
      (forall (e : Error.t) (rest : list Error.t),
          Errors.Error (APIResponse.Errors apiResp) = e :: rest ->
          errorMsg = Error.Message e) /\
      (Errors.Error (APIResponse.Errors apiResp) = [] -> errorMsg = "unknown error").
Proof.
  intros L h n domains reqURL req resp apiResp Hlen Hurl Hreq Hdo Hxml Hst.
  rewrite (DomainsCheck_in_range n domains Hlen).
  rewrite (run_checkDomains h n domains reqURL req resp apiResp Hurl Hreq Hdo Hxml).
  apply String.eqb_neq in Hst. rewrite Hst. simpl.
  eexists. eexists. split; [reflexivity |]. split; [reflexivity |]. split; [reflexivity |].
  split.
  - intros e rest ->. reflexivity.
  - intros ->. reflexivity.
Qed.

Lemma C4_upstream_error_witness :
  exists (errorMsg : string) (err : error),
    run (example_env (inr (mkResponse 200 "<ApiResponse Status='ERROR'/>")))
        (@DomainsCheck (example_libraries (inr error_envelope)) example_service
                       ["example.com"])
    = ([], Some err) /\
    err = fmt_Errorf "%w: %s" [arg_error ErrAPIError; arg_string errorMsg] /\
    errors_Is err ErrAPIError = true /\
    (forall (e : Error.t) (rest : list Error.t),
        Errors.Error (APIResponse.Errors error_envelope) = e :: rest ->
        errorMsg = Error.Message e) /\
    (Errors.Error (APIResponse.Errors error_envelope) = [] -> errorMsg = "unknown error").
Proof.
  eapply (C4_upstream_error (example_libraries (inr error_envelope))
            (example_env (inr (mkResponse 200 "<ApiResponse Status='ERROR'/>")))
            example_service ["example.com"]).
  - unfold maxDomainsPerCheck. simpl. lia.
  - vm_compute. reflexivity.
  - vm_compute. reflexivity.
  - reflexivity.
  - reflexivity.
  - discriminate.
Defined.

(** ** The adapter *)

(** C8: [Handler] runs [Execute] and nothing else.  When [Execute]
    returns an error, [Handler] returns that error, no result and the
    zero output; when the output has no JSON form, it returns the error
    of [json.Marshal] wrapped as a failure of marshaling, no result and
    the zero output; otherwise it returns the output and a result that is
    no error and holds one text content: the JSON text, for the audience
    ["assistant"], with priority 1. *)
Theorem C8_handler :
  forall (E : Type -> Type) (In Out : Type) (G : tool.GoType Out)
         (t : tool.Tool E In Out) (args : In) (h : env E),
    (forall (output : Out) (err : error),
        run h (tool.Execute (tool.service t) args) = (output, Some err) ->
        run h (tool.Handler t args) = (None, tool.zero, Some err)) /\
    (forall (output : Out) (jsonData : string) (err : error),
        run h (tool.Execute (tool.service t) args) = (output, None) ->
        tool.json_Marshal output = (jsonData, Some err) ->
        run h (tool.Handler t args)
        = (None, tool.zero,
           Some (fmt_Errorf "error marshaling results to JSON: %w" [arg_error err]))) /\
    (forall (output : Out) (jsonData : string),
        run h (tool.Execute (tool.service t) args) = (output, None) ->
        tool.json_Marshal output = (jsonData, None) ->
        run h (tool.Handler t args)
        = (Some (mcp.CallToolResult.mk false
                   [mcp.TextContentRef
                      (mcp.TextContent.mk jsonData
                         (Some (mcp.Annotations.mk ["assistant"] 1%float)))]),
           output, None)) /\
    calls h (tool.Handler t args) = calls h (tool.Execute (tool.service t) args).
Proof.
  intros E In Out G t args h. unfold tool.Handler.
  rewrite run_bind, calls_bind.
  destruct (run h (tool.Execute (tool.service t) args)) as [output [err |]] eqn:Hex.
  - simpl. rewrite app_nil_r. repeat split; intros; congruence.
  - destruct (tool.json_Marshal output) as [jsonData [err |]] eqn:Hjs;
      simpl; rewrite app_nil_r; repeat split; intros; congruence.
Qed.

Lemma C8_handler_witness :
  run (example_env (inl (lib_error "net" "unreachable")))
      (tool.Handler (tool.NewTool failingService) (mkMockInput "test"))
  = (None, mkMockOutput "", Some errServiceError) /\
  run (example_env (inl (lib_error "net" "unreachable")))
      (tool.Handler (tool.NewTool unmarshalableService) (mkMockInput "test"))
  = (None, mkUnmarshalable 0,
     Some (fmt_Errorf "error marshaling results to JSON: %w"
             [arg_error (lib_error "json.UnsupportedTypeError"
                                   "json: unsupported type: chan int")])) /\
  run (example_env (inl (lib_error "net" "unreachable")))
      (tool.Handler (tool.NewTool successService) (mkMockInput "test-input"))
  = (Some (mcp.CallToolResult.mk false
             [mcp.TextContentRef
                (mcp.TextContent.mk
                   ("{" ++ dquote ++ "result" ++ dquote ++ ":" ++ dquote
                        ++ "success: test-input" ++ dquote ++ "}")
                   (Some (mcp.Annotations.mk ["assistant"] 1%float)))]),
     mkMockOutput "success: test-input", None).
Proof.
  split; [| split].
  - exact (proj1 (C8_handler _ _ _ _ (tool.NewTool failingService) (mkMockInput "test")
                    (example_env (inl (lib_error "net" "unreachable"))))
             (mkMockOutput "") errServiceError eq_refl).
  - exact (proj1 (proj2 (C8_handler _ _ _ _ (tool.NewTool unmarshalableService)
                           (mkMockInput "test")
                           (example_env (inl (lib_error "net" "unreachable")))))
             (mkUnmarshalable 1) ""
             (lib_error "json.UnsupportedTypeError" "json: unsupported type: chan int")
             eq_refl eq_refl).
  - exact (proj1 (proj2 (proj2 (C8_handler _ _ _ _ (tool.NewTool successService)
                                  (mkMockInput "test-input")
                                  (example_env (inl (lib_error "net" "unreachable"))))))
             (mkMockOutput "success: test-input") _ eq_refl eq_refl).
Defined.

(** ** [url.QueryEscape], [url.Encode] and [url.ParseQuery] *)

Section UrlFacts.
Import url.

Ltac each_byte c := destruct c as [[] [] [] [] [] [] [] []].

Lemma append_assoc (a b c : string) : (a ++ b) ++ c = a ++ b ++ c.
Proof. induction a as [| x a IH]; simpl; [reflexivity | now rewrite IH]. Qed.

Lemma append_nil_r (a : string) : a ++ "" = a.
Proof. induction a as [| x a IH]; simpl; [reflexivity | now rewrite IH]. Qed.

Lemma Contains_app (a b : string) (c : ascii) :
  Contains (a ++ b) c = Contains a c || Contains b c.
Proof.
  induction a as [| x a IH]; simpl; [reflexivity |].
  now rewrite IH, orb_assoc.
Qed.

(** A byte that [QueryEscape] leaves as it is separates nothing and
    starts no escape. *)
Lemma unescaped_byte (c : ascii) :
  shouldEscape c = false ->
  (c =? "&")%char = false /\ (c =? ";")%char = false /\ (c =? "=")%char = false /\
  (c =? "%")%char = false /\ (c =? "+")%char = false.
Proof. each_byte c; vm_compute; intros H; first [discriminate H | repeat split]. Qed.

Lemma upperhex_byte (c : ascii) (sep : ascii) :
  sep = "&"%char \/ sep = ";"%char \/ sep = "="%char ->
  (upperhex (N.shiftr (N_of_ascii c) 4) =? sep)%char = false /\
  (upperhex (N.land (N_of_ascii c) 15) =? sep)%char = false.
Proof.
  intros [-> | [-> | ->]]; each_byte c; vm_compute; split; reflexivity.
Qed.

Lemma unhex_upperhex (c : ascii) :
  ishex (upperhex (N.shiftr (N_of_ascii c) 4)) = true /\
  ishex (upperhex (N.land (N_of_ascii c) 15)) = true /\
  ascii_of_N (N.lor (N.shiftl (unhex (upperhex (N.shiftr (N_of_ascii c) 4))) 4)
                    (unhex (upperhex (N.land (N_of_ascii c) 15)))) = c.
Proof. each_byte c; vm_compute; repeat split. Qed.

(** What [QueryEscape] writes holds no [&], no [;] and no [=]. *)
Lemma QueryEscape_lacks (s : string) (sep : ascii) :
  sep = "&"%char \/ sep = ";"%char \/ sep = "="%char ->
  Contains (QueryEscape s) sep = false.
Proof.
  intros Hsep.
  induction s as [| c s IH]; cbn [QueryEscape]; [reflexivity |].
  destruct (c =? " ")%char.
  - cbn [Contains]. rewrite IH.
    destruct Hsep as [-> | [-> | ->]]; reflexivity.
  - destruct (shouldEscape c) eqn:Hc; cbn [Contains].
    + destruct (upperhex_byte c sep Hsep) as [-> ->]. rewrite IH.
      destruct Hsep as [-> | [-> | ->]]; reflexivity.
    + destruct (unescaped_byte c Hc) as (H1 & H2 & H3 & _). rewrite IH.
      destruct Hsep as [-> | [-> | ->]]; [rewrite H1 | rewrite H2 | rewrite H3]; reflexivity.
Qed.

(** [QueryUnescape] reads back what [QueryEscape] writes. *)
Lemma QueryUnescape_QueryEscape (s : string) :
  QueryUnescape (QueryEscape s) = (s, None).
Proof.
  induction s as [| c s IH]; cbn [QueryEscape]; [reflexivity |].
  destruct (c =? " ")%char eqn:Hsp.
  - apply Ascii.eqb_eq in Hsp. subst c.
    cbn [QueryUnescape]. rewrite IH. reflexivity.
  - destruct (shouldEscape c) eqn:Hc.
    + destruct (unhex_upperhex c) as (H1 & H2 & H3).
      cbn [QueryUnescape]. rewrite Ascii.eqb_refl, H1, H2. cbn [andb].
      rewrite IH, H3. reflexivity.
    + destruct (unescaped_byte c Hc) as (_ & _ & _ & Hpc & Hpl).
      cbn [QueryUnescape]. rewrite Hpc, IH, Hpl. reflexivity.
Qed.

(** *** [Encode] writes the pairs of the sorted keys, joined by [&] *)

Lemma render_lacks (p : string * string) :
  Contains (render p) "&" = false /\ Contains (render p) ";" = false.
Proof.
  unfold render. rewrite !Contains_app.
  rewrite !(QueryEscape_lacks _ "&"), !(QueryEscape_lacks _ ";") by auto.
  split; reflexivity.
Qed.

Lemma render_not_empty (p : string * string) : (render p =? "") = false.
Proof. unfold render. destruct (QueryEscape (fst p)); reflexivity. Qed.

Lemma fold_values (k : string) (xs : list string) (buf : string) :
  fold_left
    (fun (buf : string) (x : string) =>
       (if (String.length buf =? 0)%nat then buf else buf ++ "&")
         ++ QueryEscape k ++ "=" ++ QueryEscape x) xs buf
  = fold_left emit (map (pair k) xs) buf.
Proof.
  revert buf. induction xs as [| x xs IH]; intros buf; cbn [fold_left map]; [reflexivity |].
  rewrite IH. reflexivity.
Qed.

Lemma fold_keys (v : Values) (ks : list string) (buf : string) :
  fold_left
    (fun (buf : string) (k : string) =>
       let keyEscaped := QueryEscape k in
       fold_left
         (fun (buf : string) (x : string) =>
            (if (String.length buf =? 0)%nat then buf else buf ++ "&")
              ++ keyEscaped ++ "=" ++ QueryEscape x)
         (lookup v k) buf) ks buf
  = fold_left emit (flat_map (fun k => map (pair k) (lookup v k)) ks) buf.
Proof.
  revert buf. induction ks as [| k ks IH]; intros buf; cbn [fold_left flat_map]; [reflexivity |].
  rewrite fold_left_app, IH. cbv zeta. now rewrite fold_values.
Qed.

Lemma Encode_flat (v : Values) : Encode v = fold_left emit (flat v) "".
Proof. unfold Encode, flat. apply fold_keys. Qed.

Lemma emit_joined (ps : list (string * string)) (buf : string) :
  (buf =? "") = false -> fold_left emit ps buf = buf ++ joined_tail ps.
Proof.
  revert buf. induction ps as [| p ps IH]; intros buf Hbuf; cbn [fold_left joined_tail].
  - now rewrite append_nil_r.
  - rewrite IH.
    + unfold emit. destruct buf as [| c buf]; [discriminate Hbuf |].
      cbn [String.length Nat.eqb]. now rewrite !append_assoc.
    + unfold emit. destruct buf as [| c buf]; [discriminate Hbuf | reflexivity].
Qed.

Lemma Encode_joined (v : Values) : Encode v = joined (flat v).
Proof.
  rewrite Encode_flat. destruct (flat v) as [| p ps]; [reflexivity |].
  cbn [fold_left joined]. rewrite emit_joined.
  - reflexivity.
  - unfold emit. cbn. apply render_not_empty.
Qed.

(** *** The loop of [parseQuery] cuts the pairs apart *)

Lemma cuts_end (s : string) :
  Contains s "&" = false -> cuts (s ++ "") = (s, []).
Proof.
  induction s as [| c s IH]; cbn [append cuts Contains]; [reflexivity |].
  intros H. apply orb_false_elim in H. destruct H as [Hc Hs].
  rewrite Hc, (IH Hs). reflexivity.
Qed.

Lemma cuts_amp (s t : string) :
  Contains s "&" = false -> cuts (s ++ String "&" t) = (s, pieces t).
Proof.
  induction s as [| c s IH]; cbn [append cuts Contains].
  - intros _. destruct t; reflexivity.
  - intros H. apply orb_false_elim in H. destruct H as [Hc Hs].
    rewrite Hc, (IH Hs). reflexivity.
Qed.

Lemma pieces_joined (ps : list (string * string)) : pieces (joined ps) = map render ps.
Proof.
  destruct ps as [| p ps]; [reflexivity |]. cbn [joined map].
  revert p. induction ps as [| q ps IH]; intros p; cbn [joined_tail map].
  - unfold pieces. rewrite cuts_end by apply render_lacks.
    rewrite append_nil_r. destruct (render p) eqn:E; [| reflexivity].
    pose proof (render_not_empty p) as H. rewrite E in H. discriminate H.
  - unfold pieces at 1. change ("&" ++ render q ++ joined_tail ps)
      with (String "&" (render q ++ joined_tail ps)).
    rewrite cuts_amp by apply render_lacks. rewrite IH.
    destruct (render p ++ String "&" (render q ++ joined_tail ps)) eqn:E; [| reflexivity].
    pose proof (render_not_empty p) as H. destruct (render p); discriminate.
Qed.

Lemma Cut_found (a b : string) (sep : ascii) :
  Contains a sep = false -> Cut (a ++ String sep b) sep = (a, b, true).
Proof.
  induction a as [| c a IH]; cbn [append Cut Contains].
  - intros _. now rewrite Ascii.eqb_refl.
  - intros H. apply orb_false_elim in H. destruct H as [Hc Ha].
    rewrite Hc, (IH Ha). reflexivity.
Qed.

Lemma parseQuery_step_render (m : Values) (p : string * string) :
  parseQuery_step (m, None) (render p)
  = (store m (fst p) (lookup m (fst p) ++ [snd p])%list, None).
Proof.
  unfold parseQuery_step.
  rewrite (proj2 (render_lacks p)), render_not_empty.
  unfold render. change ("=" ++ QueryEscape (snd p)) with (String "=" (QueryEscape (snd p))).
  rewrite Cut_found by (apply QueryEscape_lacks; auto).
  rewrite !QueryUnescape_QueryEscape. reflexivity.
Qed.

Lemma parseQuery_renders (ps : list (string * string)) (m : Values) :
  fold_left parseQuery_step (map render ps) (m, None)
  = (fold_left (fun m p => Add m (fst p) (snd p)) ps m, None).
Proof.
  revert m. induction ps as [| p ps IH]; intros m; cbn [map fold_left]; [reflexivity |].
  rewrite parseQuery_step_render. apply IH.
Qed.

(** *** The values of a key *)

Lemma lookup_store (m : Values) (k k' : string) (vs : list string) :
  lookup (store m k vs) k' = if (k =? k') then vs else lookup m k'.
Proof.
  induction m as [| [k0 old] m IH]; cbn [store lookup].
  - destruct (k =? k'); reflexivity.
  - destruct (String.eqb_spec k0 k) as [-> | Hne]; cbn [lookup].
    + destruct (k =? k'); reflexivity.
    + rewrite IH. destruct (String.eqb_spec k0 k') as [-> | Hne'].
      * apply String.eqb_neq in Hne. rewrite String.eqb_sym in Hne. now rewrite Hne.
      * reflexivity.
Qed.

Lemma lookup_adds (ps : list (string * string)) (m : Values) (k : string) :
  lookup (fold_left (fun m p => Add m (fst p) (snd p)) ps m) k
  = (lookup m k ++ map snd (filter (fun p => fst p =? k) ps))%list.
Proof.
  revert m. induction ps as [| p ps IH]; intros m; cbn [fold_left filter map].
  - now rewrite app_nil_r.
  - rewrite IH. unfold Add. rewrite lookup_store.
    destruct (String.eqb_spec (fst p) k) as [-> | Hne].
    + cbn [map]. now rewrite <- app_assoc.
    + reflexivity.
Qed.

Lemma lookup_absent (v : Values) (k : string) : ~ In k (keys v) -> lookup v k = [].
Proof.
  induction v as [| [k0 vs] v IH]; cbn [keys map lookup fst]; [reflexivity |].
  intros H. destruct (String.eqb_spec k0 k) as [-> | Hne].
  - exfalso. apply H. now left.
  - apply IH. intros Hin. apply H. now right.
Qed.

Lemma filter_pairs_other (k k' : string) (xs : list string) :
  k' <> k -> filter (fun p : string * string => fst p =? k) (map (pair k') xs) = [].
Proof.
  intros Hne. induction xs as [| x xs IH]; cbn [map filter fst]; [reflexivity |].
  apply String.eqb_neq in Hne. now rewrite Hne.
Qed.

Lemma filter_pairs_same (k : string) (xs : list string) :
  map snd (filter (fun p : string * string => fst p =? k) (map (pair k) xs)) = xs.
Proof.
  induction xs as [| x xs IH]; cbn [map filter fst]; [reflexivity |].
  rewrite String.eqb_refl. cbn [map snd]. now rewrite IH.
Qed.

Lemma filter_flat (v : Values) (ks : list string) (k : string) :
  NoDup ks ->
  map snd (filter (fun p => fst p =? k)
             (flat_map (fun k' => map (pair k') (lookup v k')) ks))
  = if in_dec string_dec k ks then lookup v k else [].
Proof.
  induction ks as [| k0 ks IH]; intros Hnd; cbn [flat_map]; [reflexivity |].
  inversion Hnd as [| ? ? Hnotin Hnd']; subst.
  rewrite filter_app, map_app, (IH Hnd').
  destruct (string_dec k0 k) as [-> | Hne].
  - rewrite filter_pairs_same.
    destruct (in_dec string_dec k (k :: ks)) as [_ | Hn]; [| exfalso; apply Hn; now left].
    destruct (in_dec string_dec k ks) as [Hin | _]; [contradiction |].
    now rewrite app_nil_r.
  - rewrite (filter_pairs_other k k0 _ Hne). cbn [map app].
    destruct (in_dec string_dec k ks) as [Hin | Hn];
      destruct (in_dec string_dec k (k0 :: ks)) as [Hin' | Hn']; try reflexivity.
    + exfalso. apply Hn'. now right.
    + destruct Hin' as [E | Hin']; [congruence | contradiction].
Qed.

(** *** Sorting keeps the keys *)

Lemma In_insertSorted (k x : string) (l : list string) :
  In k (insertSorted x l) <-> k = x \/ In k l.
Proof.
  induction l as [| y l IH]; cbn [insertSorted].
  - cbn. intuition congruence.
  - destruct (x <=? y)%string; cbn [In]; [intuition congruence |].
    rewrite IH. intuition congruence.
Qed.

Lemma NoDup_insertSorted (x : string) (l : list string) :
  ~ In x l -> NoDup l -> NoDup (insertSorted x l).
Proof.
  induction l as [| y l IH]; cbn [insertSorted]; intros Hx Hl.
  - constructor; [intros [] | constructor].
  - destruct (x <=? y)%string; [now constructor |].
    inversion Hl as [| ? ? Hy Hl']; subst. constructor.
    + rewrite In_insertSorted. intros [-> | Hin]; [apply Hx; now left | contradiction].
    + apply IH; [intros Hin; apply Hx; now right | assumption].
Qed.

Lemma In_Sorted (k : string) (l : list string) : In k (Sorted l) <-> In k l.
Proof.
  induction l as [| x l IH]; cbn [Sorted fold_right]; [reflexivity |].
  change (fold_right insertSorted [] l) with (Sorted l).
  rewrite In_insertSorted, IH. cbn. intuition congruence.
Qed.

Lemma NoDup_Sorted (l : list string) : NoDup l -> NoDup (Sorted l).
Proof.
  induction l as [| x l IH]; cbn [Sorted fold_right]; intros H; [constructor |].
  change (fold_right insertSorted [] l) with (Sorted l).
  inversion H as [| ? ? Hx Hl]; subst.
  apply NoDup_insertSorted; [now rewrite In_Sorted | now apply IH].
Qed.

(** *** [ParseQuery] reads back what [Encode] writes *)

Theorem ParseQuery_Encode (v : Values) :
  NoDup (keys v) ->
  snd (ParseQuery (Encode v)) = None /\
  forall k : string, lookup (fst (ParseQuery (Encode v))) k = lookup v k.
Proof.
  intros Hnd. unfold ParseQuery.
  rewrite Encode_joined, pieces_joined, parseQuery_renders. cbn [fst snd].
  split; [reflexivity |]. intros k.
  rewrite lookup_adds. cbn [lookup app]. unfold flat.
  rewrite filter_flat by now apply NoDup_Sorted.
  destruct (in_dec string_dec k (Sorted (keys v))) as [_ | Hn]; [reflexivity |].
  symmetry. apply lookup_absent. now rewrite <- In_Sorted.
Qed.

Corollary Query_Encode_Get (u : URL) (v : Values) (k : string) :
  NoDup (keys v) -> Get (Query (set_RawQuery u (Encode v))) k = Get v k.
Proof.
  intros Hnd. unfold Get, Query. cbn [RawQuery set_RawQuery].
  now rewrite (proj2 (ParseQuery_Encode v Hnd)).
Qed.

Lemma keys_store (m : Values) (k : string) (vs : list string) :
  keys (store m k vs) = if in_dec string_dec k (keys m) then keys m else (keys m ++ [k])%list.
Proof.
  induction m as [| [k0 old] m IH]; cbn [store keys map fst].
  - destruct (in_dec string_dec k []) as [[] | _]. reflexivity.
  - destruct (String.eqb_spec k0 k) as [-> | Hne]; cbn [map fst].
    + destruct (in_dec string_dec k (k :: map fst m)) as [_ | Hn]; [reflexivity |].
      exfalso. apply Hn. now left.
    + fold (keys (store m k vs)). rewrite IH. fold (keys m).
      destruct (in_dec string_dec k (keys m)) as [Hin | Hn];
        destruct (in_dec string_dec k (k0 :: keys m)) as [Hin' | Hn']; try reflexivity.
      * exfalso. apply Hn'. now right.
      * destruct Hin' as [E | Hin']; [congruence | contradiction].
Qed.

Lemma NoDup_keys_Add (m : Values) (k x : string) : NoDup (keys m) -> NoDup (keys (Add m k x)).
Proof.
  intros H. unfold Add. rewrite keys_store.
  destruct (in_dec string_dec k (keys m)) as [_ | Hn]; [assumption |].
  apply NoDup_app; [assumption | constructor; [intros [] | constructor] |].
  intros a Ha [<- | []]. contradiction.
Qed.

End UrlFacts.

(** ** The request URL *)

Example buildRequestURL_tests :
  @buildRequestURL go
     (mkService (logger_ref 0)
        (mkConfig "testuser" "testkey" "testusername" "192.168.1.1" defaultNamecheapEndpoint))
     "https://api.namecheap.com/xml.response" "example.com,example.org,example.net"
  = ("https://api.namecheap.com/xml.response?ApiKey=testkey&ApiUser=testuser&ClientIp=192.168.1.1&Command=namecheap.domains.check&DomainList=example.com%2Cexample.org%2Cexample.net&UserName=testusername",
     None) /\
  snd (@buildRequestURL go example_service "://invalid" "example.com") <> None.
Proof. split; vm_compute; [reflexivity | discriminate]. Qed.

(** C7: with the credentials of the test, whatever the domains, when the
    base URL parses, [buildRequestURL] returns the text of that URL with
    its query replaced; the query is well formed and its parameters are
    [ApiUser=testuser], [ApiKey=testkey], [UserName=testusername],
    [ClientIp=192.168.1.1], [Command=namecheap.domains.check] and
    [DomainList], which is the domains joined by commas, byte for byte.
    [checkDomains] passes the endpoint of the configuration and the
    joined domains, and makes the HTTP exchange with the request for the
    URL that is built. *)
Theorem C7_request_query :
  forall (L : Libraries) (logger : zap_Logger) (endpoint baseURL : string)
         (domains : list string) (u : url.URL),
    domains <> [] ->
    url_Parse baseURL = inr u ->
    exists built : url.URL,
      buildRequestURL
        (mkService logger (mkConfig "testuser" "testkey" "testusername" "192.168.1.1" endpoint))
        baseURL (String.concat "," domains)
      = (URL_String built, None) /\
      built = url.set_RawQuery u (url.RawQuery built) /\
      snd (url.ParseQuery (url.RawQuery built)) = None /\
      url.Get (url.Query built) "ApiUser" = "testuser" /\
      url.Get (url.Query built) "ApiKey" = "testkey" /\
      url.Get (url.Query built) "UserName" = "testusername" /\
      url.Get (url.Query built) "ClientIp" = "192.168.1.1" /\
      url.Get (url.Query built) "Command" = "namecheap.domains.check" /\
      url.Get (url.Query built) "DomainList" = String.concat "," domains /\
      (baseURL = endpoint ->
       (List.length domains <= maxDomainsPerCheck)%nat ->
       forall (h : env event) (req : http_Request),
         http_NewRequestWithContext "GET" (URL_String built) = inr req ->
         In (existT _ _ (Do httpTimeoutSeconds req))
            (calls h (DomainsCheck
                        (mkService logger
                           (mkConfig "testuser" "testkey" "testusername" "192.168.1.1" endpoint))
                        domains))).
Proof.
  intros L logger endpoint baseURL domains u Hne Hparse.
  unfold buildRequestURL. rewrite Hparse. cbn [config APIUser APIKey UserName ClientIP].
  set (params := url.Add _ "DomainList" _).
  assert (Hnd : NoDup (url.keys params)).
  { unfold params. repeat apply NoDup_keys_Add. constructor. }
  exists (url.set_RawQuery u (url.Encode params)).
  split; [reflexivity |]. split; [reflexivity |].
  split; [exact (proj1 (ParseQuery_Encode params Hnd)) |].
  assert (HG : forall k : string,
             url.Get (url.Query (url.set_RawQuery u (url.Encode params))) k
             = url.Get params k)
    by (intros k; now apply Query_Encode_Get).
  rewrite !HG. clear HG.
  repeat (split; [reflexivity |]).
  intros -> Hlen h req Hreq.
  rewrite DomainsCheck_in_range.
  - assert (Hb : buildRequestURL
                   (mkService logger
                      (mkConfig "testuser" "testkey" "testusername" "192.168.1.1" endpoint))
                   endpoint (String.concat "," domains)
                 = (URL_String (url.set_RawQuery u (url.Encode params)), None)).
    { unfold buildRequestURL. rewrite Hparse. reflexivity. }
    unfold checkDomains. cbn [config Endpoint namecheap.logger]. rewrite Hb.
    cbn [bind trigger calls]. rewrite Hreq. cbn [bind trigger calls].
    right. right. left. reflexivity.
  - split; [| exact Hlen]. destruct domains; [congruence | simpl; lia].
Qed.

Lemma C7_request_query_witness :
  exists built : url.URL,
    @buildRequestURL go
      (mkService (logger_ref 0)
         (mkConfig "testuser" "testkey" "testusername" "192.168.1.1" defaultNamecheapEndpoint))
      defaultNamecheapEndpoint (String.concat "," ["example.com"; "example.org"])
    = (example_String built, None) /\
    url.Get (url.Query built) "ApiUser" = "testuser" /\
    url.Get (url.Query built) "DomainList" = "example.com,example.org".
Proof.
  destruct (C7_request_query go (logger_ref 0) defaultNamecheapEndpoint
              defaultNamecheapEndpoint ["example.com"; "example.org"]
              (url.mkURL "" "" None "" defaultNamecheapEndpoint "" false false "" "" ""))
    as (built & Hb & _ & _ & Hu & _ & _ & _ & _ & Hd & _).
  - discriminate.
  - reflexivity.
  - exists built. split; [exact Hb |]. split; [exact Hu | exact Hd].
Defined.

(** * Further properties of the client *)

Section MoreClientProperties.
Context {L : Libraries}.

(** The calls of [checkDomains], stage by stage. *)
Lemma calls_checkDomains (h : env event) (n : Service) (domains : list string) :
  calls h (checkDomains n domains) =
  existT _ _ (Debug (logger n) "Checking domains with Namecheap API"
                [zap_Strings "domains" domains]) ::
  match buildRequestURL n (Endpoint (config n)) (String.concat "," domains) with
  | (_, Some _) => []
  | (reqURL, None) =>
      existT _ _ (Debug (logger n) "Making Namecheap API call"
                    [zap_String "url" reqURL;
                     zap_Int "domain_count" (Z.of_nat (List.length domains))]) ::
      match http_NewRequestWithContext "GET" reqURL with
      | inl _ => []
      | inr req =>
          existT _ _ (Do httpTimeoutSeconds req) ::
          match h _ (Do httpTimeoutSeconds req) with
          | inl _ => []
          | inr resp =>
              (match xml_Decode (resp_Body resp) with
               | inl _ => []
               | inr apiResp =>
                   if negb (APIResponse.Status apiResp =? "OK") then []
                   else
                     let results :=
                       parseResults n (CommandResponse.DomainCheckResults
                                         (APIResponse.CommandResponse apiResp)) in
                     [existT _ _ (Debug (logger n) "Domain check completed"
                                    [zap_Int "domains_checked"
                                       (Z.of_nat (List.length results));
                                     zap_Any "results" results])]
               end ++ [existT _ _ (Close resp)])%list
          end
      end
  end.
Proof.
  unfold checkDomains. cbn [bind trigger calls]. f_equal.
  destruct (buildRequestURL n (Endpoint (config n)) (String.concat "," domains))
    as [reqURL [err |]]; [reflexivity |].
  cbn [bind trigger calls]. f_equal.
  destruct (http_NewRequestWithContext "GET" reqURL) as [err | req]; [reflexivity |].
  cbn [bind trigger calls]. f_equal.
  destruct (h _ (Do httpTimeoutSeconds req)) as [err | resp]; [reflexivity |].
  rewrite calls_bind. f_equal.
  destruct (xml_Decode (resp_Body resp)) as [err | apiResp]; [reflexivity |].
  destruct (negb (APIResponse.Status apiResp =? "OK")); reflexivity.
Qed.

(** The result of [checkDomains], stage by stage. *)
Lemma run_checkDomains_stages (h : env event) (n : Service) (domains : list string) :
  run h (checkDomains n domains) =
  match buildRequestURL n (Endpoint (config n)) (String.concat "," domains) with
  | (_, Some err) =>
      ([], Some (fmt_Errorf "failed to build request URL: %w" [arg_error err]))
  | (reqURL, None) =>
      match http_NewRequestWithContext "GET" reqURL with
      | inl err => ([], Some (fmt_Errorf "failed to create request: %w" [arg_error err]))
      | inr req =>
          match h _ (Do httpTimeoutSeconds req) with
          | inl err => ([], Some (fmt_Errorf "HTTP request failed: %w" [arg_error err]))
          | inr resp =>
              match xml_Decode (resp_Body resp) with
              | inl err =>
                  ([], Some (fmt_Errorf "failed to decode XML response: %w" [arg_error err]))
              | inr apiResp =>
                  if negb (APIResponse.Status apiResp =? "OK") then
                    ([], Some (fmt_Errorf "%w: %s"
                                 [arg_error ErrAPIError;
                                  arg_string
                                    match Errors.Error (APIResponse.Errors apiResp) with
                                    | e :: _ => Error.Message e
                                    | [] => "unknown error"
                                    end]))
                  else
                    (parseResults n (CommandResponse.DomainCheckResults
                                       (APIResponse.CommandResponse apiResp)), None)
              end
          end
      end
  end.
Proof.
  unfold checkDomains. cbn [bind trigger run].
  destruct (buildRequestURL n (Endpoint (config n)) (String.concat "," domains))
    as [reqURL [err |]]; [reflexivity |].
  cbn [bind trigger run].
  destruct (http_NewRequestWithContext "GET" reqURL) as [err | req]; [reflexivity |].
  cbn [bind trigger run].
  destruct (h _ (Do httpTimeoutSeconds req)) as [err | resp]; [reflexivity |].
  rewrite run_bind.
  destruct (xml_Decode (resp_Body resp)) as [err | apiResp]; [reflexivity |].
  destruct (negb (APIResponse.Status apiResp =? "OK")); reflexivity.
Qed.

Lemma DomainsCheck_cases (n : Service) (domains : list string) :
  DomainsCheck n domains = Ret ([], Some ErrMissingDomains) \/
  DomainsCheck n domains = Ret ([], Some ErrMaxDomainsExceeded) \/
  DomainsCheck n domains = checkDomains n domains.
Proof.
  unfold DomainsCheck. destruct (List.length domains =? 0)%nat; [now left |].
  destruct (maxDomainsPerCheck <? List.length domains)%nat; [right; now left |].
  right. now right.
Qed.

End MoreClientProperties.

(** ** Order and composition of the mapping *)

(** X1: the results of [parseResults] name the domains of the records,
    one result for a record and in the order of the records, and their
    availability is the comparison of the attribute with ["true"]. *)
Theorem parseResults_domains :
  forall (L : Libraries) (n : Service) (rs : list DomainCheckResult.t),
    map Result.Domain (parseResults n rs) = map DomainCheckResult.Domain rs /\
    map Result.Available (parseResults n rs)
    = map (fun d => DomainCheckResult.Available d =? "true") rs.
Proof.
  intros L n rs. rewrite parseResults_map, !map_map. split.
  - apply map_ext. intros d. now destruct (parseResult_fields d) as (H & _).
  - apply map_ext. intros d. now destruct (parseResult_fields d) as (_ & H & _).
Qed.

(** X2: mapping two batches one after the other is mapping their
    concatenation. *)
Theorem parseResults_concat :
  forall (L : Libraries) (n : Service) (a b : list DomainCheckResult.t),
    parseResults n (a ++ b) = (parseResults n a ++ parseResults n b)%list.
Proof. intros L n a b. rewrite !parseResults_map. apply map_app. Qed.

(** X3: every field of a result depends only on the attributes that it
    is read from: the fees on their own attribute, the error on [ErrorNo]
    and [Description], a premium price on [IsPremiumName] and its own
    attribute.  So an attribute that does not parse touches no other
    field. *)
Theorem parseResult_field_independence :
  forall (L : Libraries) (d d' : DomainCheckResult.t),
    (DomainCheckResult.IcannFee d = DomainCheckResult.IcannFee d' ->
     Result.IcannFee (parseResult d) = Result.IcannFee (parseResult d')) /\
    (DomainCheckResult.EapFee d = DomainCheckResult.EapFee d' ->
     Result.EapFee (parseResult d) = Result.EapFee (parseResult d')) /\
    (DomainCheckResult.ErrorNo d = DomainCheckResult.ErrorNo d' ->
     DomainCheckResult.Description d = DomainCheckResult.Description d' ->
     Result.Error (parseResult d) = Result.Error (parseResult d')) /\
    (DomainCheckResult.IsPremiumName d = DomainCheckResult.IsPremiumName d' ->
     (DomainCheckResult.PremiumRegistrationPrice d
      = DomainCheckResult.PremiumRegistrationPrice d' ->
      Result.PremiumRegistrationPrice (parseResult d)
      = Result.PremiumRegistrationPrice (parseResult d')) /\
     (DomainCheckResult.PremiumRenewalPrice d = DomainCheckResult.PremiumRenewalPrice d' ->
      Result.PremiumRenewalPrice (parseResult d)
      = Result.PremiumRenewalPrice (parseResult d'))).
Proof.
  intros L d d'.
  destruct (parseResult_fields d) as (_ & _ & _ & Hreg & Hren & Hi & He & Herr).
  destruct (parseResult_fields d') as (_ & _ & _ & Hreg' & Hren' & Hi' & He' & Herr').
  repeat split.
  - intros E. now rewrite Hi, Hi', E.
  - intros E. now rewrite He, He', E.
  - intros E1 E2. now rewrite Herr, Herr', E1, E2.
  - intros E. now rewrite Hreg, Hreg', H, E.
  - intros E. now rewrite Hren, Hren', H, E.
Qed.

Lemma parseResult_field_independence_witness :
  Result.IcannFee (@parseResult go malformed_com)
  = Result.IcannFee
      (@parseResult go
         (DomainCheckResult.mk "other.com" "false" "" "" "" "invalid" "1.5" "0" "")).
Proof.
  apply (proj1 (parseResult_field_independence go malformed_com
                  (DomainCheckResult.mk "other.com" "false" "" "" "" "invalid" "1.5" "0" ""))).
  reflexivity.
Defined.

(** ** The outcomes of a check *)

(** X4: a check that returns an error returns no result, on every path
    and in every environment. *)
Theorem DomainsCheck_error_no_results :
  forall (L : Libraries) (h : env event) (n : Service) (domains : list string)
         (results : list Result.t) (err : error),
    run h (DomainsCheck n domains) = (results, Some err) ->
    results = [].
Proof.
  intros L h n domains results err.
  destruct (DomainsCheck_cases n domains) as [-> | [-> | ->]];
    [cbn; congruence | cbn; congruence |].
  rewrite run_checkDomains_stages.
  destruct (buildRequestURL n (Endpoint (config n)) (String.concat "," domains))
    as [reqURL [e |]]; [congruence |].
  destruct (http_NewRequestWithContext "GET" reqURL) as [e | req]; [congruence |].
  destruct (h _ (Do httpTimeoutSeconds req)) as [e | resp]; [congruence |].
  destruct (xml_Decode (resp_Body resp)) as [e | apiResp]; [congruence |].
  destruct (negb (APIResponse.Status apiResp =? "OK")); congruence.
Qed.

Lemma DomainsCheck_error_no_results_witness :
  fst (run (example_env (inr (mkResponse 200 "<ApiResponse Status='ERROR'/>")))
           (@DomainsCheck (example_libraries (inr error_envelope)) example_service
                          ["example.com"]))
  = [].
Proof.
  eapply (DomainsCheck_error_no_results (example_libraries (inr error_envelope))
            (example_env (inr (mkResponse 200 "<ApiResponse Status='ERROR'/>")))
            example_service ["example.com"]).
  vm_compute. reflexivity.
Defined.

(** X5: a check succeeds in one way only: the number of domains is
    between 1 and 50, the URL and the request are built, the server
    answers, the answer decodes to an envelope with the status ["OK"],
    and the results are the mapping of the records of that envelope,
    however many domains were asked for. *)
Theorem DomainsCheck_success_origin :
  forall (L : Libraries) (h : env event) (n : Service) (domains : list string)
         (results : list Result.t),
    run h (DomainsCheck n domains) = (results, None) ->
    (1 <= List.length domains <= 50)%nat /\
    exists (reqURL : string) (req : http_Request) (resp : http_Response)
           (apiResp : APIResponse.t),
      buildRequestURL n (Endpoint (config n)) (String.concat "," domains) = (reqURL, None) /\
      http_NewRequestWithContext "GET" reqURL = inr req /\
      h _ (Do httpTimeoutSeconds req) = inr resp /\
      xml_Decode (resp_Body resp) = inr apiResp /\
      APIResponse.Status apiResp = "OK" /\
      results = parseResults n (CommandResponse.DomainCheckResults
                                  (APIResponse.CommandResponse apiResp)).
Proof.
  intros L h n domains results. unfold DomainsCheck.
  destruct (Nat.eqb_spec (List.length domains) 0) as [E0 | E0]; [cbn; congruence |].
  destruct (Nat.ltb_spec maxDomainsPerCheck (List.length domains)) as [E1 | E1];
    [cbn; congruence |].
  unfold maxDomainsPerCheck in E1. split; [lia |].
  rewrite run_checkDomains_stages in H.
  destruct (buildRequestURL n (Endpoint (config n)) (String.concat "," domains))
    as [reqURL [e |]]; [congruence |].
  destruct (http_NewRequestWithContext "GET" reqURL) as [e | req] eqn:Hreq; [congruence |].
  destruct (h _ (Do httpTimeoutSeconds req)) as [e | resp] eqn:Hdo; [congruence |].
  destruct (xml_Decode (resp_Body resp)) as [e | apiResp] eqn:Hxml; [congruence |].
  destruct (String.eqb_spec (APIResponse.Status apiResp) "OK") as [Hok | Hok];
    cbn [negb] in H; [| congruence].
  exists reqURL, req, resp, apiResp. repeat split; try assumption; congruence.
Qed.

Lemma DomainsCheck_success_origin_witness :
  (1 <= List.length ["error.com"; "example.com"] <= 50)%nat.
Proof.
  apply (DomainsCheck_success_origin (example_libraries (inr ok_envelope))
           (example_env (inr (mkResponse 200 "<ApiResponse Status='OK'/>")))
           example_service ["error.com"; "example.com"]
           (@parseResults go example_service [error_com; example_com])).
  vm_compute. reflexivity.
Defined.

(** ** The HTTP exchange of a check *)

(** X6: a check makes at most one HTTP exchange, never a second attempt;
    the exchange has the timeout of 30 seconds and its request is the
    [GET] request for the URL that [buildRequestURL] returns. *)
Theorem DomainsCheck_single_exchange :
  forall (L : Libraries) (h : env event) (n : Service) (domains : list string),
    (List.length (exchanges (calls h (DomainsCheck n domains))) <= 1)%nat /\
    forall (timeout : Z) (req : http_Request),
      In (timeout, req) (exchanges (calls h (DomainsCheck n domains))) ->
      timeout = 30%Z /\
      exists reqURL : string,
        buildRequestURL n (Endpoint (config n)) (String.concat "," domains)
        = (reqURL, None) /\
        http_NewRequestWithContext "GET" reqURL = inr req.
Proof.
  intros L h n domains.
  destruct (DomainsCheck_cases n domains) as [-> | [-> | ->]];
    [cbn; split; [lia | intros ? ? []] | cbn; split; [lia | intros ? ? []] |].
  rewrite calls_checkDomains.
  destruct (buildRequestURL n (Endpoint (config n)) (String.concat "," domains))
    as [reqURL [e |]]; [cbn; split; [lia | intros ? ? []] |].
  destruct (http_NewRequestWithContext "GET" reqURL) as [e | req] eqn:Hreq;
    [cbn; split; [lia | intros ? ? []] |].
  assert (Hex : exchanges
                  (existT _ _ (Debug (logger n) "Checking domains with Namecheap API"
                                 [zap_Strings "domains" domains]) ::
                   existT _ _ (Debug (logger n) "Making Namecheap API call"
                                 [zap_String "url" reqURL;
                                  zap_Int "domain_count" (Z.of_nat (List.length domains))]) ::
                   existT _ _ (Do httpTimeoutSeconds req) ::
                   match h _ (Do httpTimeoutSeconds req) with
                   | inl _ => []
                   | inr resp =>
                       (match xml_Decode (resp_Body resp) with
                        | inl _ => []
                        | inr apiResp =>
                            if negb (APIResponse.Status apiResp =? "OK") then []
                            else
                              let results :=
                                parseResults n (CommandResponse.DomainCheckResults
                                                  (APIResponse.CommandResponse apiResp)) in
                              [existT _ _ (Debug (logger n) "Domain check completed"
                                             [zap_Int "domains_checked"
                                                (Z.of_nat (List.length results));
                                              zap_Any "results" results])]
                        end ++ [existT _ _ (Close resp)])%list
                   end)
                = [(httpTimeoutSeconds, req)]).
  { unfold exchanges. cbn [flat_map exchange_of projT2 app]. f_equal.
    destruct (h _ (Do httpTimeoutSeconds req)) as [e | resp]; [reflexivity |].
    rewrite flat_map_app.
    destruct (xml_Decode (resp_Body resp)) as [e | apiResp]; [reflexivity |].
    destruct (negb (APIResponse.Status apiResp =? "OK")); reflexivity. }
  rewrite Hex. split; [cbn; lia |].
  intros timeout req' [Heq | []]. inversion Heq; subst.
  split; [reflexivity |]. exists reqURL. split; [reflexivity | assumption].
Qed.

(** X7: the bodies that a check closes are the bodies of the responses
    that it received, each once; and when it closes a body, that is its
    last call. *)
Theorem DomainsCheck_closes_body :
  forall (L : Libraries) (h : env event) (n : Service) (domains : list string),
    closed (calls h (DomainsCheck n domains))
    = flat_map (fun x : Z * http_Request =>
                  match h _ (Do (fst x) (snd x)) with
                  | inr resp => [resp]
                  | inl _ => []
                  end)
               (exchanges (calls h (DomainsCheck n domains))) /\
    (forall resp : http_Response,
        In resp (closed (calls h (DomainsCheck n domains))) ->
        exists before : list {X : Type & event X},
          calls h (DomainsCheck n domains)
          = (before ++ [existT _ _ (Close resp)])%list /\
          closed before = []).
Proof.
  intros L h n domains.
  destruct (DomainsCheck_cases n domains) as [-> | [-> | ->]];
    [cbn; split; [reflexivity | intros ? []] | cbn; split; [reflexivity | intros ? []] |].
  rewrite calls_checkDomains.
  destruct (buildRequestURL n (Endpoint (config n)) (String.concat "," domains))
    as [reqURL [e |]]; [cbn; split; [reflexivity | intros ? []] |].
  destruct (http_NewRequestWithContext "GET" reqURL) as [e | req];
    [cbn; split; [reflexivity | intros ? []] |].
  unfold closed, exchanges. cbn [flat_map closed_of exchange_of projT2 app fst snd].
  destruct (h _ (Do httpTimeoutSeconds req)) as [e | resp] eqn:Hdo;
    [cbn [flat_map closed_of exchange_of projT2 app fst snd];
     split; [reflexivity | intros ? []] |].
  rewrite !flat_map_app. cbn [flat_map closed_of exchange_of projT2 app fst snd].
  set (mid := match xml_Decode (resp_Body resp) with
              | inl _ => []
              | inr apiResp => _
              end).
  assert (Hmid : flat_map closed_of mid = [] /\ flat_map exchange_of mid = []).
  { unfold mid. destruct (xml_Decode (resp_Body resp)) as [e | apiResp]; [now split |].
    destruct (negb (APIResponse.Status apiResp =? "OK")); now split. }
  destruct Hmid as [Hc He]. rewrite Hc, He. split; [reflexivity |].
  intros resp' [<- | []].
  eexists (_ :: _ :: _ :: mid). split; [reflexivity |].
  cbn [flat_map closed_of projT2 app]. exact Hc.
Qed.

Lemma DomainsCheck_closes_body_witness :
  exists before : list {X : Type & event X},
    calls (example_env (inr (mkResponse 200 "<ApiResponse Status='ERROR'/>")))
          (@DomainsCheck (example_libraries (inr error_envelope)) example_service
                         ["example.com"])
    = (before ++ [existT _ _ (Close (mkResponse 200 "<ApiResponse Status='ERROR'/>"))])%list /\
    closed before = [].
Proof.
  apply (proj2 (DomainsCheck_closes_body (example_libraries (inr error_envelope))
                  (example_env (inr (mkResponse 200 "<ApiResponse Status='ERROR'/>")))
                  example_service ["example.com"])).
  vm_compute. left. reflexivity.
Defined.

(** X8: the failures of the stages of a check.  When the request cannot
    be created the check fails with that error wrapped and makes no HTTP
    exchange; when the exchange fails it fails with the error of the
    transport wrapped and closes nothing; when the body does not decode it
    fails with the error of the decoder wrapped, after closing the body. *)
Theorem checkDomains_stage_failures :
  forall (L : Libraries) (h : env event) (n : Service) (domains : list string)
         (reqURL : string),
    (1 <= List.length domains <= 50)%nat ->
    buildRequestURL n (Endpoint (config n)) (String.concat "," domains) = (reqURL, None) ->
    (forall err : error,
        http_NewRequestWithContext "GET" reqURL = inl err ->
        run h (DomainsCheck n domains)
        = ([], Some (fmt_Errorf "failed to create request: %w" [arg_error err])) /\
        exchanges (calls h (DomainsCheck n domains)) = []) /\
    (forall (req : http_Request) (err : error),
        http_NewRequestWithContext "GET" reqURL = inr req ->
        h _ (Do httpTimeoutSeconds req) = inl err ->
        run h (DomainsCheck n domains)
        = ([], Some (fmt_Errorf "HTTP request failed: %w" [arg_error err])) /\
        closed (calls h (DomainsCheck n domains)) = []) /\
    (forall (req : http_Request) (resp : http_Response) (err : error),
        http_NewRequestWithContext "GET" reqURL = inr req ->
        h _ (Do httpTimeoutSeconds req) = inr resp ->
        xml_Decode (resp_Body resp) = inl err ->
        run h (DomainsCheck n domains)
        = ([], Some (fmt_Errorf "failed to decode XML response: %w" [arg_error err])) /\
        closed (calls h (DomainsCheck n domains)) = [resp]).
Proof.
  intros L h n domains reqURL Hlen Hurl.
  rewrite (DomainsCheck_in_range n domains Hlen).
  rewrite run_checkDomains_stages, calls_checkDomains, Hurl.
  split; [| split].
  - intros err ->. split; reflexivity.
  - intros req err -> ->. split; reflexivity.
  - intros req resp err -> -> ->. split; reflexivity.
Qed.

Lemma checkDomains_stage_failures_witness :
  run (example_env (inl (lib_error "net" "connection refused")))
      (@DomainsCheck go example_service ["example.com"])
  = ([], Some (fmt_Errorf "HTTP request failed: %w"
                 [arg_error (lib_error "net" "connection refused")])) /\
  closed (calls (example_env (inl (lib_error "net" "connection refused")))
                (@DomainsCheck go example_service ["example.com"])) = [].
Proof.
  destruct (checkDomains_stage_failures go
              (example_env (inl (lib_error "net" "connection refused")))
              example_service ["example.com"]
              (fst (@buildRequestURL go example_service "" "example.com")))
    as (_ & H & _).
  - simpl. lia.
  - vm_compute. reflexivity.
  - eapply H.
    + vm_compute. reflexivity.
    + reflexivity.
Defined.

(** ** The parameters of the request, for all credentials *)

(** X9: for every configuration and every text of domains, when the
    base URL parses, the query of the URL that [buildRequestURL] builds
    is well formed and holds six parameters, each with one value: the
    four credentials as they are configured, the command, and the text of
    domains; it holds no other parameter, whatever bytes the credentials
    and the domains contain.  When the base URL does not parse, the
    error of the parser is returned with an empty URL. *)
Theorem buildRequestURL_parameters :
  forall (L : Libraries) (n : Service) (baseURL domainList : string),
    (forall err : error,
        url_Parse baseURL = inl err ->
        buildRequestURL n baseURL domainList = ("", Some err)) /\
    (forall u : url.URL,
        url_Parse baseURL = inr u ->
        exists built : url.URL,
          buildRequestURL n baseURL domainList = (URL_String built, None) /\
          built = url.set_RawQuery u (url.RawQuery built) /\
          snd (url.ParseQuery (url.RawQuery built)) = None /\
          url.lookup (url.Query built) "ApiUser" = [APIUser (config n)] /\
          url.lookup (url.Query built) "ApiKey" = [APIKey (config n)] /\
          url.lookup (url.Query built) "UserName" = [UserName (config n)] /\
          url.lookup (url.Query built) "ClientIp" = [ClientIP (config n)] /\
          url.lookup (url.Query built) "Command" = ["namecheap.domains.check"] /\
          url.lookup (url.Query built) "DomainList" = [domainList] /\
          forall k : string,
            ~ In k ["ApiUser"; "ApiKey"; "UserName"; "ClientIp"; "Command"; "DomainList"] ->
            url.lookup (url.Query built) k = []).
Proof.
  intros L n baseURL domainList. unfold buildRequestURL. split.
  - intros err ->. reflexivity.
  - intros u ->.
    set (params := url.Add _ "DomainList" _).
    assert (Hnd : NoDup (url.keys params)).
    { unfold params. repeat apply NoDup_keys_Add. constructor. }
    exists (url.set_RawQuery u (url.Encode params)).
    split; [reflexivity |]. split; [reflexivity |].
    destruct (ParseQuery_Encode params Hnd) as [Herr Hlook].
    split; [exact Herr |].
    unfold url.Query. cbn [url.RawQuery url.set_RawQuery]. rewrite !Hlook.
    repeat (split; [reflexivity |]).
    intros k Hk.
    assert (Hkeys : url.keys params
                    = ["ApiUser"; "ApiKey"; "UserName"; "ClientIp"; "Command"; "DomainList"])
      by reflexivity.
    rewrite <- Hkeys in Hk. rewrite Hlook. exact (lookup_absent params k Hk).
Qed.

Lemma buildRequestURL_parameters_witness :
  exists built : url.URL,
    @buildRequestURL go
      (mkService (logger_ref 0) (mkConfig "a&b=c" "k e+y" "100%" "::1" ""))
      "https://host/api" "x.com,y.com&ApiKey=other"
    = (example_String built, None) /\
    url.lookup (url.Query built) "ApiUser" = ["a&b=c"] /\
    url.lookup (url.Query built) "ApiKey" = ["k e+y"] /\
    url.lookup (url.Query built) "DomainList" = ["x.com,y.com&ApiKey=other"].
Proof.
  destruct (proj2 (buildRequestURL_parameters go
                     (mkService (logger_ref 0) (mkConfig "a&b=c" "k e+y" "100%" "::1" ""))
                     "https://host/api" "x.com,y.com&ApiKey=other")
              (url.mkURL "" "" None "" "https://host/api" "" false false "" "" ""))
    as (built & Hb & _ & _ & Hu & Hk & _ & _ & _ & Hd & _).
  - reflexivity.
  - exists built. repeat split; assumption.
Defined.

(** X10: a check reads the domains only through their text joined by
    commas: two lists of 1 to 50 domains with the same joined text give
    the same HTTP exchange and the same result, so a name that holds a
    comma is sent as two names. *)
Theorem DomainsCheck_joined_text :
  forall (L : Libraries) (h : env event) (n : Service) (a b : list string),
    (1 <= List.length a <= 50)%nat ->
    (1 <= List.length b <= 50)%nat ->
    String.concat "," a = String.concat "," b ->
    run h (DomainsCheck n a) = run h (DomainsCheck n b) /\
    exchanges (calls h (DomainsCheck n a)) = exchanges (calls h (DomainsCheck n b)).
Proof.
  intros L h n a b Ha Hb Hab.
  rewrite (DomainsCheck_in_range n a Ha), (DomainsCheck_in_range n b Hb).
  rewrite !run_checkDomains_stages, !calls_checkDomains, Hab.
  split; [reflexivity |].
  destruct (buildRequestURL n (Endpoint (config n)) (String.concat "," b))
    as [reqURL [e |]]; [reflexivity |].
  destruct (http_NewRequestWithContext "GET" reqURL) as [e | req]; [reflexivity |].
  unfold exchanges. cbn [flat_map exchange_of projT2 app]. reflexivity.
Qed.

Lemma DomainsCheck_joined_text_witness :
  run (example_env (inr (mkResponse 200 "")))
      (@DomainsCheck (example_libraries (inr ok_envelope)) example_service ["a.com,b.com"])
  = run (example_env (inr (mkResponse 200 "")))
      (@DomainsCheck (example_libraries (inr ok_envelope)) example_service ["a.com"; "b.com"]) /\
  exchanges (calls (example_env (inr (mkResponse 200 "")))
      (@DomainsCheck (example_libraries (inr ok_envelope)) example_service ["a.com,b.com"]))
  = exchanges (calls (example_env (inr (mkResponse 200 "")))
      (@DomainsCheck (example_libraries (inr ok_envelope)) example_service ["a.com"; "b.com"])).
Proof.
  apply (DomainsCheck_joined_text (example_libraries (inr ok_envelope))
           (example_env (inr (mkResponse 200 ""))) example_service
           ["a.com,b.com"] ["a.com"; "b.com"]).
  - simpl. lia.
  - simpl. lia.
  - reflexivity.
Defined.

(** * Properties of the adapter of package [tools] *)

Lemma run_translate {E F : Type -> Type} {A : Type} (f : forall X : Type, E X -> F X)
      (h : env F) (m : IO E A) :
  run h (translate f m) = run (fun X e => h X (f X e)) m.
Proof.
  induction m as [a | X e k IH]; cbn [translate run]; [reflexivity | apply IH].
Qed.

Lemma calls_translate {E F : Type -> Type} {A : Type} (f : forall X : Type, E X -> F X)
      (h : env F) (m : IO E A) :
  calls h (translate f m)
  = map (fun c : {X : Type & E X} => existT _ (projT1 c) (f _ (projT2 c)))
        (calls (fun X e => h X (f X e)) m).
Proof.
  induction m as [a | X e k IH]; cbn [translate calls map projT1 projT2];
    [reflexivity | now rewrite IH].
Qed.

Lemma NewNamecheapTool_result (logger : zap_Logger) (cfg : Config) :
  NewNamecheapTool logger cfg = (None, Some ErrMissingAPICredentials) \/
  NewNamecheapTool logger cfg = (Some (mkService logger cfg), None).
Proof.
  unfold NewNamecheapTool.
  destruct ((APIUser cfg =? "") || (APIKey cfg =? "") ||
            (UserName cfg =? "") || (ClientIP cfg =? "")); [now left | now right].
Qed.

(** X11: the function [GetNamecheapTool] and the method
    [NewNamecheapTool] of the factory build the same tool.  They fail
    with [ErrMissingAPICredentials] and no tool exactly when the service
    cannot be built; otherwise the tool reports the name and the
    description of the service and checks domains with the service of
    that logger and that configuration. *)
Theorem GetNamecheapTool_factory :
  forall (L : Libraries) (logger : zap_Logger) (cfg : Config),
    tools.DomainToolsFactory_NewNamecheapTool (tools.NewDomainChecker logger) cfg
    = tools.GetNamecheapTool logger cfg /\
    (tools.GetNamecheapTool logger cfg = (None, Some ErrMissingAPICredentials) <->
     (APIUser cfg = "" \/ APIKey cfg = "" \/ UserName cfg = "" \/ ClientIP cfg = "")) /\
    (APIUser cfg <> "" -> APIKey cfg <> "" -> UserName cfg <> "" -> ClientIP cfg <> "" ->
     exists nt : tools.NamecheapTool,
       tools.GetNamecheapTool logger cfg = (Some nt, None) /\
       tools.Name nt = "check_availability_namecheap" /\
       tools.Description nt = "Check domain availability using Namecheap API" /\
       DomainChecker_DomainsCheck (tools.service nt) = DomainsCheck (mkService logger cfg)).
Proof.
  intros L logger cfg. split; [reflexivity |]. split.
  - unfold tools.GetNamecheapTool, NewNamecheapTool.
    destruct cfg as [u k n i e]; cbn [APIUser APIKey UserName ClientIP].
    destruct (String.eqb_spec u "") as [Eu | Eu];
      destruct (String.eqb_spec k "") as [Ek | Ek];
      destruct (String.eqb_spec n "") as [En | En];
      destruct (String.eqb_spec i "") as [Ei | Ei]; cbn [orb];
      split; intros H; try reflexivity; try discriminate H; try tauto;
      intuition congruence.
  - intros Hu Hk Hn Hi. unfold tools.GetNamecheapTool.
    rewrite (NewNamecheapTool_present logger cfg Hu Hk Hn Hi).
    eexists. split; [reflexivity |]. repeat split.
Qed.

Lemma GetNamecheapTool_factory_witness :
  exists nt : tools.NamecheapTool,
    @tools.GetNamecheapTool go (logger_ref 0)
       (mkConfig "user" "key" "username" "127.0.0.1" "") = (Some nt, None) /\
    tools.Name nt = "check_availability_namecheap" /\
    tools.Description nt = "Check domain availability using Namecheap API" /\
    DomainChecker_DomainsCheck (tools.service nt)
    = @DomainsCheck go (mkService (logger_ref 0)
                          (mkConfig "user" "key" "username" "127.0.0.1" "")).
Proof.
  apply (proj2 (proj2 (GetNamecheapTool_factory go (logger_ref 0)
                         (mkConfig "user" "key" "username" "127.0.0.1" ""))));
    discriminate.
Defined.

Section ToolsHandler.
Context {R : tools.Runtime}.

Lemma run_tools_Handler (h : env tools.event) (nt : tools.NamecheapTool)
      (params : tools.CallToolParamsFor ParamsIn) :
  run h (tools.Handler nt params) =
  match run (tools.checker_env h)
            (DomainChecker_DomainsCheck (tools.service nt)
               (Domains (tools.Arguments_ params))) with
  | (_, Some err) =>
      (None, Some (fmt_Errorf "%w: %w" [arg_error ErrNamecheapAPIFailed; arg_error err]))
  | (results, None) =>
      match tools.json_Marshal (mkParamsOut results) with
      | (_, Some err) =>
          (None, Some (fmt_Errorf "error marshaling results to JSON: %w" [arg_error err]))
      | (jsonData, None) =>
          (Some (tools.mkCallToolResultFor (mkParamsOut results) [] false
                   [tools.TextContentRef
                      (tools.mkTextContent jsonData []
                         (Some (tools.mkAnnotations ["assistant"]
                                  (tools.time_Format (h _ tools.time_Now) tools.time_RFC3339)
                                  1%float)))]),
           None)
      end
  end.
Proof.
  unfold tools.Handler. cbn [bind trigger run].
  rewrite !run_bind, run_translate. fold (tools.checker_env h).
  destruct (run (tools.checker_env h) _) as [results [err |]]; [reflexivity |].
  destruct (tools.json_Marshal (mkParamsOut results)) as [jsonData [err |]]; reflexivity.
Qed.

End ToolsHandler.

(** X12: the adapter of package [tools] classifies the failures of the
    service: an error of [DomainsCheck] comes back wrapped together with
    [ErrNamecheapAPIFailed], with no result; an output without a JSON
    form gives the error of [json.Marshal] wrapped, with no result; and
    otherwise the result holds the results as structured content and, as
    its one content, their JSON text for the audience ["assistant"] with
    priority 1 and the time of the clock in the format RFC 3339. *)
Theorem tools_Handler_outcomes :
  forall (R : tools.Runtime) (h : env tools.event) (nt : tools.NamecheapTool)
         (params : tools.CallToolParamsFor ParamsIn),
    (forall (results : list Result.t) (err : error),
        run (tools.checker_env h)
            (DomainChecker_DomainsCheck (tools.service nt) (Domains (tools.Arguments_ params)))
        = (results, Some err) ->
        run h (tools.Handler nt params)
        = (None, Some (fmt_Errorf "%w: %w" [arg_error ErrNamecheapAPIFailed; arg_error err])) /\
        errors_Is (fmt_Errorf "%w: %w" [arg_error ErrNamecheapAPIFailed; arg_error err])
                  ErrNamecheapAPIFailed = true) /\
    (forall (results : list Result.t) (jsonData : string) (err : error),
        run (tools.checker_env h)
            (DomainChecker_DomainsCheck (tools.service nt) (Domains (tools.Arguments_ params)))
        = (results, None) ->
        tools.json_Marshal (mkParamsOut results) = (jsonData, Some err) ->
        run h (tools.Handler nt params)
        = (None, Some (fmt_Errorf "error marshaling results to JSON: %w" [arg_error err]))) /\
    (forall (results : list Result.t) (jsonData : string),
        run (tools.checker_env h)
            (DomainChecker_DomainsCheck (tools.service nt) (Domains (tools.Arguments_ params)))
        = (results, None) ->
        tools.json_Marshal (mkParamsOut results) = (jsonData, None) ->
        run h (tools.Handler nt params)
        = (Some (tools.mkCallToolResultFor (mkParamsOut results) [] false
                   [tools.TextContentRef
                      (tools.mkTextContent jsonData []
                         (Some (tools.mkAnnotations ["assistant"]
                                  (tools.time_Format (h _ tools.time_Now) tools.time_RFC3339)
                                  1%float)))]),
           None)).
Proof.
  intros R h nt params. rewrite run_tools_Handler. split; [| split].
  - intros results err ->. split; reflexivity.
  - intros results jsonData err -> ->. reflexivity.
  - intros results jsonData -> ->. reflexivity.
Qed.

Lemma tools_Handler_outcomes_witness :
  run (example_tools_env (inr (mkResponse 200 "")))
      (@tools.Handler example_runtime
         (tools.NewNamecheapTool
            (@Service_DomainChecker (example_libraries (inr ok_envelope)) example_service))
         (tools.mkCallToolParamsFor "check_availability_namecheap"
            (mkParamsIn ["error.com"; "example.com"])))
  = (Some (tools.mkCallToolResultFor
             (mkParamsOut
                (@parseResults go example_service [error_com; example_com])) [] false
             [tools.TextContentRef
                (tools.mkTextContent "[error.com,example.com]" []
                   (Some (tools.mkAnnotations ["assistant"] "1970-01-01T00:00:00Z" 1%float)))]),
     None).
Proof.
  apply (proj2 (proj2 (tools_Handler_outcomes example_runtime
                         (example_tools_env (inr (mkResponse 200 "")))
                         (tools.NewNamecheapTool
                            (@Service_DomainChecker (example_libraries (inr ok_envelope))
                                                    example_service))
                         (tools.mkCallToolParamsFor "check_availability_namecheap"
                            (mkParamsIn ["error.com"; "example.com"]))))).
  - vm_compute. reflexivity.
  - vm_compute. reflexivity.
Defined.

(** X13: the adapter makes the calls of the service as they are, between
    two readings of the clock, and reads the clock once more only when it
    builds a result; it makes no other call. *)
Theorem tools_Handler_calls :
  forall (R : tools.Runtime) (h : env tools.event) (nt : tools.NamecheapTool)
         (params : tools.CallToolParamsFor ParamsIn),
    calls h (tools.Handler nt params)
    = (existT _ _ tools.time_Now ::
       map (fun c : {X : Type & event X} =>
              existT _ (projT1 c) (tools.Checker _ (projT2 c)))
           (calls (tools.checker_env h)
                  (DomainChecker_DomainsCheck (tools.service nt)
                     (Domains (tools.Arguments_ params))))
       ++ match run (tools.checker_env h)
                    (DomainChecker_DomainsCheck (tools.service nt)
                       (Domains (tools.Arguments_ params))) with
          | (results, None) =>
              match tools.json_Marshal (mkParamsOut results) with
              | (_, None) => [existT _ _ tools.time_Now]
              | (_, Some _) => []
              end
          | (_, Some _) => []
          end
       ++ [existT _ _ tools.time_Now])%list.
Proof.
  intros R h nt params. unfold tools.Handler. cbn [bind trigger calls]. f_equal.
  rewrite !calls_bind, calls_translate, run_bind, run_translate.
  fold (tools.checker_env h). rewrite <- app_assoc. f_equal.
  destruct (run (tools.checker_env h) _) as [results [err |]]; [reflexivity |].
  destruct (tools.json_Marshal (mkParamsOut results)) as [jsonData [err |]]; reflexivity.
Qed.

(** X14: a tool that [GetNamecheapTool] builds rejects a request with no
    domain, or with more than 50, without any call of the service, so
    with no line for the logger and no HTTP exchange: it reads the clock
    twice and returns an error that wraps [ErrNamecheapAPIFailed] and
    the error of the count. *)
Theorem tools_Handler_rejects_count :
  forall (L : Libraries) (R : tools.Runtime) (h : env tools.event)
         (logger : zap_Logger) (cfg : Config) (nt : tools.NamecheapTool)
         (params : tools.CallToolParamsFor ParamsIn),
    tools.GetNamecheapTool logger cfg = (Some nt, None) ->
    let cause :=
      if (List.length (Domains (tools.Arguments_ params)) =? 0)%nat
      then ErrMissingDomains else ErrMaxDomainsExceeded in
    List.length (Domains (tools.Arguments_ params)) = 0%nat \/
    (50 < List.length (Domains (tools.Arguments_ params)))%nat ->
    run h (tools.Handler nt params)
    = (None, Some (fmt_Errorf "%w: %w" [arg_error ErrNamecheapAPIFailed; arg_error cause])) /\
    calls h (tools.Handler nt params)
    = [existT _ _ tools.time_Now; existT _ _ tools.time_Now] /\
    errors_Is (fmt_Errorf "%w: %w" [arg_error ErrNamecheapAPIFailed; arg_error cause])
              ErrNamecheapAPIFailed = true /\
    errors_Is (fmt_Errorf "%w: %w" [arg_error ErrNamecheapAPIFailed; arg_error cause])
              cause = true.
Proof.
  intros L R h logger cfg nt params Hget cause Hcount.
  assert (Hnt : nt = tools.NewNamecheapTool (Service_DomainChecker (mkService logger cfg))).
  { unfold tools.GetNamecheapTool in Hget.
    destruct (NewNamecheapTool_result logger cfg) as [E | E]; rewrite E in Hget;
      congruence. }
  assert (Hcheck : DomainsCheck (mkService logger cfg) (Domains (tools.Arguments_ params))
                   = Ret ([], Some cause)).
  { unfold DomainsCheck, cause.
    destruct (Nat.eqb_spec (List.length (Domains (tools.Arguments_ params))) 0)
      as [E0 | E0]; [reflexivity |].
    destruct Hcount as [E | E]; [contradiction |].
    destruct (Nat.ltb_spec maxDomainsPerCheck
                           (List.length (Domains (tools.Arguments_ params)))) as [_ | E1];
      [reflexivity | unfold maxDomainsPerCheck in E1; lia]. }
  subst nt. unfold tools.Handler.
  cbn [tools.service tools.NewNamecheapTool Service_DomainChecker DomainChecker_DomainsCheck].
  rewrite Hcheck. cbn [translate bind trigger run calls].
  repeat split; unfold cause;
    destruct (List.length (Domains (tools.Arguments_ params)) =? 0)%nat; reflexivity.
Qed.

Lemma tools_Handler_rejects_count_witness :
  run (example_tools_env (inl (lib_error "net" "unreachable")))
      (@tools.Handler example_runtime
         (tools.NewNamecheapTool (@Service_DomainChecker go example_service))
         (tools.mkCallToolParamsFor "check_availability_namecheap" (mkParamsIn [])))
  = (None, Some (fmt_Errorf "%w: %w"
                   [arg_error ErrNamecheapAPIFailed; arg_error ErrMissingDomains])).
Proof.
  apply (tools_Handler_rejects_count go example_runtime
           (example_tools_env (inl (lib_error "net" "unreachable")))
           (logger_ref 0) (mkConfig "user" "key" "username" "127.0.0.1" "")
           (tools.NewNamecheapTool (@Service_DomainChecker go example_service))
           (tools.mkCallToolParamsFor "check_availability_namecheap" (mkParamsIn []))).
  - reflexivity.
  - left. reflexivity.
Defined.

(** * Properties of [cmd/app] *)

(** X15: [setupTools] registers the Namecheap tool, under the name and
    the description of the service and with the service of the given
    logger and credentials, exactly when the four credentials are
    present, and then logs that the tool is enabled; otherwise it only
    logs that the tool is disabled.  It never logs the warning of a
    failed construction and never calls a method of a missing tool: the
    test of the credentials before the construction is the test of the
    construction. *)
Theorem setupTools_registers :
  forall (L : Libraries) (h : env app.event) (mcpServer : app.mcp_Server)
         (logger : zap_Logger) (cfg : app.config),
    (app.NamecheapAPIUser cfg <> "" -> app.NamecheapAPIKey cfg <> "" ->
     app.NamecheapUserName cfg <> "" -> app.NamecheapClientIP cfg <> "" ->
     calls h (app.setupTools mcpServer logger cfg)
     = [existT _ _
          (app.AddTool mcpServer "check_availability_namecheap"
             "Check domain availability using Namecheap API"
             (tools.NewNamecheapTool
                (Service_DomainChecker
                   (mkService logger
                      (mkConfig (app.NamecheapAPIUser cfg) (app.NamecheapAPIKey cfg)
                                (app.NamecheapUserName cfg) (app.NamecheapClientIP cfg)
                                (app.NamecheapEndpoint cfg))))));
        existT _ _ (app.Info logger "Namecheap tool enabled")]) /\
    (app.NamecheapAPIUser cfg = "" \/ app.NamecheapAPIKey cfg = "" \/
     app.NamecheapUserName cfg = "" \/ app.NamecheapClientIP cfg = "" ->
     calls h (app.setupTools mcpServer logger cfg)
     = [existT _ _ (app.Info logger "Namecheap tool disabled - missing configuration")]) /\
    (forall (l : zap_Logger) (msg : string) (err : error),
        ~ In (existT _ _ (app.Warn l msg err)) (calls h (app.setupTools mcpServer logger cfg))) /\
    (forall msg : string,
        ~ In (existT _ _ (app.Panic msg)) (calls h (app.setupTools mcpServer logger cfg))).
Proof.
  intros L h mcpServer logger cfg.
  assert (Hpresent :
            app.NamecheapAPIUser cfg <> "" -> app.NamecheapAPIKey cfg <> "" ->
            app.NamecheapUserName cfg <> "" -> app.NamecheapClientIP cfg <> "" ->
            calls h (app.setupTools mcpServer logger cfg)
            = [existT _ _
                 (app.AddTool mcpServer "check_availability_namecheap"
                    "Check domain availability using Namecheap API"
                    (tools.NewNamecheapTool
                       (Service_DomainChecker
                          (mkService logger
                             (mkConfig (app.NamecheapAPIUser cfg) (app.NamecheapAPIKey cfg)
                                       (app.NamecheapUserName cfg) (app.NamecheapClientIP cfg)
                                       (app.NamecheapEndpoint cfg))))));
               existT _ _ (app.Info logger "Namecheap tool enabled")]).
  { intros Hu Hk Hn Hi. unfold app.setupTools. cbn [APIUser APIKey UserName ClientIP].
    unfold tools.GetNamecheapTool.
    rewrite (NewNamecheapTool_present logger
               (mkConfig (app.NamecheapAPIUser cfg) (app.NamecheapAPIKey cfg)
                         (app.NamecheapUserName cfg) (app.NamecheapClientIP cfg)
                         (app.NamecheapEndpoint cfg)) Hu Hk Hn Hi).
    apply String.eqb_neq in Hu, Hk, Hn, Hi. rewrite Hu, Hk, Hn, Hi. reflexivity. }
  assert (Hmissing :
            app.NamecheapAPIUser cfg = "" \/ app.NamecheapAPIKey cfg = "" \/
            app.NamecheapUserName cfg = "" \/ app.NamecheapClientIP cfg = "" ->
            calls h (app.setupTools mcpServer logger cfg)
            = [existT _ _ (app.Info logger "Namecheap tool disabled - missing configuration")]).
  { intros Hm. unfold app.setupTools. cbn [APIUser APIKey UserName ClientIP].
    destruct Hm as [E | [E | [E | E]]]; rewrite E; cbn [String.eqb negb andb];
      rewrite ?andb_false_r; reflexivity. }
  split; [exact Hpresent |]. split; [exact Hmissing |].
  assert (Hcases :
            (app.NamecheapAPIUser cfg <> "" /\ app.NamecheapAPIKey cfg <> "" /\
             app.NamecheapUserName cfg <> "" /\ app.NamecheapClientIP cfg <> "") \/
            (app.NamecheapAPIUser cfg = "" \/ app.NamecheapAPIKey cfg = "" \/
             app.NamecheapUserName cfg = "" \/ app.NamecheapClientIP cfg = "")).
  { destruct (string_dec (app.NamecheapAPIUser cfg) ""); [tauto |].
    destruct (string_dec (app.NamecheapAPIKey cfg) ""); [tauto |].
    destruct (string_dec (app.NamecheapUserName cfg) ""); [tauto |].
    destruct (string_dec (app.NamecheapClientIP cfg) ""); tauto. }
  split.
  - intros l msg err Hin.
    destruct Hcases as [(Hu & Hk & Hn & Hi) | Hm];
      [rewrite (Hpresent Hu Hk Hn Hi) in Hin | rewrite (Hmissing Hm) in Hin];
      cbn [In] in Hin; intuition discriminate.
  - intros msg Hin.
    destruct Hcases as [(Hu & Hk & Hn & Hi) | Hm];
      [rewrite (Hpresent Hu Hk Hn Hi) in Hin | rewrite (Hmissing Hm) in Hin];
      cbn [In] in Hin; intuition discriminate.
Qed.

Lemma setupTools_registers_witness :
  calls example_app_env
        (@app.setupTools go (app.server_ref 0) (logger_ref 0)
           (app.mkConfig "info" "production" "user" "key" "username" "127.0.0.1"
                         defaultNamecheapEndpoint))
  = [existT _ _
       (app.AddTool (app.server_ref 0) "check_availability_namecheap"
          "Check domain availability using Namecheap API"
          (tools.NewNamecheapTool
             (@Service_DomainChecker go
                (mkService (logger_ref 0)
                   (mkConfig "user" "key" "username" "127.0.0.1" defaultNamecheapEndpoint)))));
     existT _ _ (app.Info (logger_ref 0) "Namecheap tool enabled")].
Proof.
  apply (proj1 (setupTools_registers go example_app_env (app.server_ref 0) (logger_ref 0)
                  (app.mkConfig "info" "production" "user" "key" "username" "127.0.0.1"
                                defaultNamecheapEndpoint)));
    discriminate.
Defined.

(** ** [corsMiddleware] *)

Lemma store_same (m : url.Values) (k : string) (vs : list string) :
  In k (url.keys m) -> url.lookup m k = vs -> url.store m k vs = m.
Proof.
  induction m as [| [k0 old] m IH]; cbn [url.keys map fst In url.lookup url.store].
  - intros [].
  - intros Hin Hl. destruct (String.eqb_spec k0 k) as [-> | Hne].
    + now subst.
    + f_equal. apply IH; [| exact Hl]. destruct Hin as [E | Hin]; [congruence | exact Hin].
Qed.

Lemma In_keys_store (m : url.Values) (k k' : string) (vs : list string) :
  In k' (url.keys (url.store m k vs)) <-> k' = k \/ In k' (url.keys m).
Proof.
  rewrite keys_store. destruct (in_dec string_dec k (url.keys m)) as [Hin | Hn].
  - split; [now right | intros [-> | H]; assumption].
  - rewrite in_app_iff. cbn [In]. intuition congruence.
Qed.

Section Cors.
Context {T : app.Textproto}.

(** The writer after the four headers are set. *)
Lemma corsMiddleware_headers (w : app.ResponseWriter) :
  NoDup (map (fun p => app.CanonicalMIMEHeaderKey (fst p)) app.corsHeaders) ->
  let w' :=
    app.set_Header
      (app.set_Header
         (app.set_Header
            (app.set_Header w "Access-Control-Allow-Origin" "*")
            "Access-Control-Allow-Methods" "GET, POST, DELETE, OPTIONS")
         "Access-Control-Allow-Headers"
         "Content-Type, Authorization, Mcp-Protocol-Version, Mcp-Session-Id")
      "Access-Control-Expose-Headers" "Mcp-Session-Id" in
  (forall k v : string,
      In (k, v) app.corsHeaders ->
      url.lookup (app.Header w') (app.CanonicalMIMEHeaderKey k) = [v] /\
      In (app.CanonicalMIMEHeaderKey k) (url.keys (app.Header w'))) /\
  (forall c : string,
      ~ In c (map (fun p => app.CanonicalMIMEHeaderKey (fst p)) app.corsHeaders) ->
      url.lookup (app.Header w') c = url.lookup (app.Header w) c).
Proof.
  cbn [app.corsHeaders map fst]. intros Hnd.
  set (c1 := app.CanonicalMIMEHeaderKey "Access-Control-Allow-Origin") in *.
  set (c2 := app.CanonicalMIMEHeaderKey "Access-Control-Allow-Methods") in *.
  set (c3 := app.CanonicalMIMEHeaderKey "Access-Control-Allow-Headers") in *.
  set (c4 := app.CanonicalMIMEHeaderKey "Access-Control-Expose-Headers") in *.
  assert (H12 : (c1 =? c2) = false /\ (c1 =? c3) = false /\ (c1 =? c4) = false /\
                (c2 =? c3) = false /\ (c2 =? c4) = false /\ (c3 =? c4) = false).
  { inversion Hnd as [| ? ? N1 Hnd1]; subst. inversion Hnd1 as [| ? ? N2 Hnd2]; subst.
    inversion Hnd2 as [| ? ? N3 Hnd3]; subst. cbn [In] in N1, N2, N3.
    repeat split; apply String.eqb_neq; intros E; rewrite E in *; tauto. }
  destruct H12 as (H12 & H13 & H14 & H23 & H24 & H34).
  pose proof H12 as H21. pose proof H13 as H31. pose proof H14 as H41.
  pose proof H23 as H32. pose proof H24 as H42. pose proof H34 as H43.
  rewrite String.eqb_sym in H21, H31, H41, H32, H42, H43.
  cbv zeta. unfold app.set_Header, app.Header_Set. cbn [app.Header].
  fold c1 c2 c3 c4. split.
  - intros k v Hin.
    destruct Hin as [E | [E | [E | [E | []]]]]; inversion E; subst k v; clear E;
      fold c1 c2 c3 c4; rewrite !lookup_store, ?String.eqb_refl, ?H12, ?H13, ?H14,
        ?H23, ?H24, ?H34, ?H21, ?H31, ?H41, ?H32, ?H42, ?H43;
      (split; [reflexivity |]); rewrite !In_keys_store; tauto.
  - intros c Hc. cbn [In] in Hc. rewrite !lookup_store.
    destruct (String.eqb_spec c4 c); [tauto |]. destruct (String.eqb_spec c3 c); [tauto |].
    destruct (String.eqb_spec c2 c); [tauto |]. destruct (String.eqb_spec c1 c); [tauto |].
    reflexivity.
Qed.

End Cors.

(** X16: [corsMiddleware] sets the four CORS headers on every request
    before anything else, replacing earlier values of these headers and
    leaving the other headers alone; on an [OPTIONS] request it writes
    the status 200 and never runs the next handler; on any other request
    it hands the writer to the next handler and writes no status itself. *)
Theorem corsMiddleware_behaviour :
  forall (T : app.Textproto) (next : app.http_Handler) (w : app.ResponseWriter)
         (r : http_Request),
    NoDup (map (fun p => app.CanonicalMIMEHeaderKey (fst p)) app.corsHeaders) ->
    exists w' : app.ResponseWriter,
      (req_Method r = "OPTIONS" ->
       app.corsMiddleware next w r = app.WriteHeader w' 200 /\
       forall next' : app.http_Handler,
         app.corsMiddleware next' w r = app.corsMiddleware next w r) /\
      (req_Method r <> "OPTIONS" -> app.corsMiddleware next w r = next w' r) /\
      app.WriteHeader_calls w' = app.WriteHeader_calls w /\
      (forall k v : string,
          In (k, v) app.corsHeaders -> app.Header_Get (app.Header w') k = v) /\
      (forall c : string,
          ~ In c (map (fun p => app.CanonicalMIMEHeaderKey (fst p)) app.corsHeaders) ->
          url.lookup (app.Header w') c = url.lookup (app.Header w) c).
Proof.
  intros T next w r Hnd.
  destruct (corsMiddleware_headers w Hnd) as [Hset Hother].
  eexists. split; [| split; [| split; [| split]]].
  - intros Hm. unfold app.corsMiddleware, app.MethodOptions. rewrite Hm.
    cbn [String.eqb Ascii.eqb Bool.eqb]. split; [reflexivity |]. reflexivity.
  - intros Hm. unfold app.corsMiddleware, app.MethodOptions.
    apply String.eqb_neq in Hm. rewrite Hm. reflexivity.
  - reflexivity.
  - intros k v Hin. unfold app.Header_Get.
    now rewrite (proj1 (Hset k v Hin)).
  - exact Hother.
Qed.

Lemma corsMiddleware_behaviour_witness :
  exists w' : app.ResponseWriter,
    (@app.corsMiddleware example_textproto (fun w _ => app.WriteHeader w 201)
       (app.mkResponseWriter [("Content-Type", ["text/plain"])] [])
       (mkRequest "POST" (url.mkURL "" "" None "" "/" "" false false "" "" ""))
     = app.WriteHeader w' 201) /\
    @app.Header_Get example_textproto (app.Header w') "Access-Control-Allow-Origin" = "*" /\
    @app.Header_Get example_textproto (app.Header w') "Content-Type" = "text/plain".
Proof.
  destruct (corsMiddleware_behaviour example_textproto (fun w _ => app.WriteHeader w 201)
              (app.mkResponseWriter [("Content-Type", ["text/plain"])] [])
              (mkRequest "POST" (url.mkURL "" "" None "" "/" "" false false "" "" "")))
    as (w' & _ & Hpost & _ & Hget & Hother).
  - vm_compute. repeat constructor; cbn [In]; intuition discriminate.
  - exists w'. split; [apply Hpost; discriminate |].
    split; [apply Hget; left; reflexivity |].
    unfold app.Header_Get. rewrite Hother; [reflexivity |].
    vm_compute. intuition discriminate.
Defined.

(** X17: wrapping a handler in [corsMiddleware] twice is wrapping it
    once: [Set] replaces the value of a header, so the headers are not
    doubled. *)
Theorem corsMiddleware_idempotent :
  forall (T : app.Textproto) (next : app.http_Handler) (w : app.ResponseWriter)
         (r : http_Request),
    NoDup (map (fun p => app.CanonicalMIMEHeaderKey (fst p)) app.corsHeaders) ->
    app.corsMiddleware (app.corsMiddleware next) w r = app.corsMiddleware next w r.
Proof.
  intros T next w r Hnd.
  unfold app.corsMiddleware at 1.
  destruct (req_Method r =? app.MethodOptions) eqn:Hm.
  - unfold app.corsMiddleware. now rewrite Hm.
  - set (w1 := app.set_Header _ "Access-Control-Expose-Headers" _).
    assert (Hw : app.corsMiddleware next w1 r = next w1 r).
    { unfold app.corsMiddleware. rewrite Hm.
      destruct (corsMiddleware_headers w Hnd) as [Hset _]. fold w1 in Hset.
      assert (Hid : forall k v, In (k, v) app.corsHeaders ->
                                forall w2, app.Header w2 = app.Header w1 ->
                                           app.Header (app.set_Header w2 k v) = app.Header w1).
      { intros k v Hin w2 Hw2. unfold app.set_Header, app.Header_Set. cbn [app.Header].
        rewrite Hw2. destruct (Hset k v Hin) as [Hl Hk]. now apply store_same. }
      assert (H1 := Hid _ _ (or_introl eq_refl) w1 eq_refl).
      assert (H2 := Hid _ _ (or_intror (or_introl eq_refl)) _ H1).
      assert (H3 := Hid _ _ (or_intror (or_intror (or_introl eq_refl))) _ H2).
      assert (H4 := Hid _ _ (or_intror (or_intror (or_intror (or_introl eq_refl)))) _ H3).
      f_equal. destruct w1 as [hd wc] eqn:Ew1.
      match goal with |- ?x = _ => destruct x as [hd' wc'] eqn:Ex end.
      cbn [app.Header] in H4. subst hd'. f_equal.
      apply (f_equal app.WriteHeader_calls) in Ex. cbn in Ex. congruence. }
    rewrite Hw. unfold app.corsMiddleware. now rewrite Hm.
Qed.

Lemma corsMiddleware_idempotent_witness :
  @app.corsMiddleware example_textproto
     (@app.corsMiddleware example_textproto (fun w _ => app.WriteHeader w 201))
     (app.mkResponseWriter [] [])
     (mkRequest "GET" (url.mkURL "" "" None "" "/" "" false false "" "" ""))
  = @app.corsMiddleware example_textproto (fun w _ => app.WriteHeader w 201)
      (app.mkResponseWriter [] [])
      (mkRequest "GET" (url.mkURL "" "" None "" "/" "" false false "" "" "")).
Proof.
  apply (corsMiddleware_idempotent example_textproto).
  vm_compute. repeat constructor; cbn [In]; intuition discriminate.
Defined.
